(** * FitTrack: the object mini-language parser and its domain records

    A shallow embedding of [fit_track_bot/parser.py] and
    [fit_track_bot/models.py].

    - A Python [str] is a list of Unicode code points ([list N]).
    - Exceptions are values of type [exn]; a function that may raise returns
      [result exn A], and [try]/[except] blocks are written out as matches on
      the exception class.
    - A Python [float] is an IEEE binary64 number, modelled with the
      Standard Library's executable specification [spec_float]
      (precision 53, maximal exponent 1024).
    - [dict]s whose iteration order is never observed are [gmap]s; the static
      tables whose order shows up in messages are association lists. *)

From Stdlib Require Import ZArith NArith List Ascii String SpecFloat Lia.
From stdpp Require Import base decidable option list gmap.

#[local] Open Scope N_scope.

(** ** Strings *)

(** [str] is Python's [str]: a sequence of code points. *)
Abbreviation str := (list N).

(** Decoding of the UTF-8 bytes of a source literal into code points, so that
    literals can be written as they are in the Python source. *)
Fixpoint utf8_decode (bs : list N) : str :=
  match bs with
  | [] => []
  | b :: t =>
      if b <? 128 then b :: utf8_decode t
      else if b <? 224 then
        match t with
        | c1 :: t1 => ((b - 192) * 64 + (c1 - 128)) :: utf8_decode t1
        | [] => []
        end
      else if b <? 240 then
        match t with
        | c1 :: c2 :: t2 =>
            ((b - 224) * 4096 + (c1 - 128) * 64 + (c2 - 128)) :: utf8_decode t2
        | _ => []
        end
      else
        match t with
        | c1 :: c2 :: c3 :: t3 =>
            ((b - 240) * 262144 + (c1 - 128) * 4096 + (c2 - 128) * 64 + (c3 - 128))
              :: utf8_decode t3
        | _ => []
        end
  end.

Definition py (s : string) : str :=
  utf8_decode (map N_of_ascii (list_ascii_of_string s)).

Definition QUOTE : N := 34.
Definition SPACE : N := 32.
Definition NEWLINE : N := 10.
Definition UNDERSCORE : N := 95.
Definition DOT : N := 46.
Definition COLON : N := 58.
Definition MINUS : N := 45.
Definition PLUS : N := 43.

(** [quoted s] is the text of [s] between two quote characters. *)
Definition quoted (s : str) : str := QUOTE :: s ++ [QUOTE].

(** [str.lower()], code point by code point.  The mapping covers the scripts
    the program's tables are written in: Basic Latin, Latin-1 and Cyrillic.
    Code points of other scripts are returned unchanged. *)
Definition lower_char (c : N) : N :=
  if (65 <=? c) && (c <=? 90) then c + 32
  else if (192 <=? c) && (c <=? 222) && negb (c =? 215) then c + 32
  else if (1024 <=? c) && (c <=? 1039) then c + 80
  else if (1040 <=? c) && (c <=? 1071) then c + 32
  else c.

Definition lower (s : str) : str := map lower_char s.

(** [s.replace(old, new)] for one-character [old] and [new]. *)
Definition replace (old new : N) (s : str) : str :=
  map (fun c => if c =? old then new else c) s.

(** The characters [str.strip()] and [int()] treat as white space. *)
Definition isspace (c : N) : bool :=
  ((9 <=? c) && (c <=? 13)) || ((28 <=? c) && (c <=? 32)) || (c =? 133) || (c =? 160)
  || (c =? 5760) || ((8192 <=? c) && (c <=? 8202)) || (c =? 8232) || (c =? 8233)
  || (c =? 8239) || (c =? 8287) || (c =? 12288).

Fixpoint lstrip (s : str) : str :=
  match s with
  | c :: s' => if isspace c then lstrip s' else s
  | [] => []
  end.

Definition strip (s : str) : str := rev (lstrip (rev (lstrip s))).

(** [s.split(sep)] for a one-character separator. *)
Fixpoint split_aux (sep : N) (s cur : str) : list str :=
  match s with
  | [] => [cur]
  | c :: s' => if c =? sep then cur :: split_aux sep s' [] else split_aux sep s' (cur ++ [c])
  end.

Definition split (sep : N) (s : str) : list str := split_aux sep s [].

(** [sep.join(parts)]. *)
Fixpoint join (sep : str) (parts : list str) : str :=
  match parts with
  | [] => []
  | [p] => p
  | p :: rest => p ++ sep ++ join sep rest
  end.

(** ** Exceptions and results *)

Inductive type_name := TStr | TInt | TFloat | TDate | TTime.

#[export] Instance type_name_eq_dec : EqDecision type_name.
Proof. solve_decision. Defined.

(** The primitive values value inference produces. *)
Inductive value :=
| VDate (year month day : Z)
| VTime (hour minute : Z)
| VStr (s : str)
| VInt (i : Z)
| VFloat (f : spec_float).

(** [type(v).__name__] *)
Definition type_of (v : value) : type_name :=
  match v with
  | VDate _ _ _ => TDate
  | VTime _ _ => TTime
  | VStr _ => TStr
  | VInt _ => TInt
  | VFloat _ => TFloat
  end.

(** Built-in exception classes that the program catches or lets escape. *)
Inductive builtin_error :=
| ValueError
| TypeError
| AttributeError
| IndexError
| ZeroDivisionError
| OverflowError.

(** [ValidationError], by the validator that raises it, with the rejected value. *)
Inductive validation_error :=
| InvalidGender (v : value)
| InvalidAge (v : value)
| InvalidHeight (v : value)
| InvalidWeight (v : value)
| InvalidGoal (v : value)
| InvalidActivity (v : value)
| InvalidSets (v : value)
| InvalidReps (v : value)
| InvalidExerciseWeight (v : value)
| DateInFuture
| InvalidGoalType (v : value)
| InvalidCalories (v : value)
| InvalidProtein (v : value)
| InvalidFat (v : value)
| InvalidCarbs (v : value).

(** What an [except Exception as error] clause can catch and wrap. *)
Inductive cause :=
| CausedByBuiltin (e : builtin_error)
| CausedByValidation (e : validation_error).

(** [ParseError], by the message it is raised with. *)
Inductive parse_error :=
| EmptyString                                  (* 'Пустая строка' *)
| UnclosedQuotes                               (* 'Незакрытые кавычки в строке' *)
| NotEnoughData                                (* 'Недостаточно данных ...' *)
| EvenTokenCount                               (* 'Некорректное количество токенов ...' *)
| UnpairedKey (key : str)                      (* 'Непарный ключ-значение для ключа: ...' *)
| DuplicateProperty (raw key : str)            (* 'Дублирующееся свойство: ...' *)
| BadDate (value_str : str)                    (* 'Некорректный формат даты: ...' *)
| BadTime (value_str : str)                    (* 'Некорректный формат времени: ...' *)
| BadValue (value_str : str)                   (* 'Не удалось распарсить значение: ...' *)
| RequiredProperties (object_type : str) (missing : list str)
    (type_errors : list (str * type_name * type_name))
                                               (* 'Ошибка валидации ...' *)
| UnexpectedWhileParsing (error : cause)       (* 'Неожиданная ошибка при парсинге: ...' *)
| UnknownObjectType (object_type : str)        (* 'Неизвестный тип объекта: ...' *)
| ConstructionFailed (object_type : str)       (* 'Ошибка при создании объекта ...' *)
| Unexpected (error : builtin_error).          (* 'Неожиданная ошибка: ...' *)

Inductive exn :=
| ParseError (e : parse_error)
| ValidationError (e : validation_error)
| Builtin (e : builtin_error).

Inductive result (E A : Type) :=
| Ok (a : A)
| Err (e : E).
Arguments Ok {E A} a.
Arguments Err {E A} e.

#[export] Instance result_ret {E} : MRet (result E) := fun _ a => Ok a.
#[export] Instance result_bind {E} : MBind (result E) :=
  fun _ _ f m => match m with Ok a => f a | Err e => Err e end.

Definition raise {A} (e : exn) : result exn A := Err e.

(** ** Regular expressions

    The fragment of [re] the five patterns are written in.  A pattern is a
    sequence of items; [re_match] is [Pattern.match]: it anchors at the start
    of the string, and [$] holds at the end of the string and just before a
    final newline. *)

Inductive atom :=
| Lit (c : N)     (* a literal character *)
| Digit           (* \d *)
| AnyChar.        (* .  : any character but a newline *)

Inductive item :=
| One (a : atom)
| Opt (a : atom)              (* a? *)
| Star (a : atom)             (* a* *)
| Plus (a : atom)             (* a+ *)
| Rep (n : nat) (a : atom)    (* a{n} *)
| Bol                         (* ^ *)
| Eol.                        (* $ *)

(** [\d] in a [str] pattern matches the decimal digits of every script
    (Unicode category Nd), and [int] and [float] read them.  The digits of a
    script are ten code points in a row, from its zero to its nine;
    [DIGIT_ZEROS] lists the zeros, as of Unicode 14.0, the version of
    CPython 3.11: 66 scripts, 660 digits. *)
Definition DIGIT_ZEROS : list N :=
  [ 48; 1632; 1776; 1984; 2406; 2534; 2662; 2790; 2918; 3046; 3174; 3302; 3430;
    3558; 3664; 3792; 3872; 4160; 4240; 6112; 6160; 6470; 6608; 6784; 6800; 6992;
    7088; 7232; 7248; 42528; 43216; 43264; 43472; 43504; 43600; 44016; 65296;
    66720; 68912; 69734; 69872; 69942; 70096; 70384; 70736; 70864; 71248; 71360;
    71472; 71904; 72016; 72784; 73040; 73120; 92768; 92864; 93008; 120782;
    120792; 120802; 120812; 120822; 123200; 123632; 125264; 130032 ].

(** The zero of the script of [c], when [c] is a digit. *)
Definition digit_zero (c : N) : option N :=
  List.find (fun z => (z <=? c) && (c <=? z + 9)) DIGIT_ZEROS.

Definition is_digit (c : N) : bool :=
  match digit_zero c with Some _ => true | None => false end.
Arguments is_digit : simpl never.

Definition atom_match (a : atom) (c : N) : bool :=
  match a with
  | Lit c' => c =? c'
  | Digit => is_digit c
  | AnyChar => negb (c =? NEWLINE)
  end.

Definition at_end (s : str) : bool :=
  match s with
  | [] => true
  | [c] => c =? NEWLINE
  | _ => false
  end.

(** The loops of [a*] and [a{n}]; [k] matches the rest of the pattern against
    the rest of the subject. *)
Fixpoint star (a : atom) (k : str -> bool) (s : str) : bool :=
  match s with
  | c :: s' => (atom_match a c && star a k s') || k s
  | [] => k s
  end.

Fixpoint rep (a : atom) (n : nat) (k : str -> bool) (s : str) : bool :=
  match n with
  | O => k s
  | S n' =>
      match s with
      | c :: s' => atom_match a c && rep a n' k s'
      | [] => false
      end
  end.

(** [re_from p s] matches the items of [p] in sequence from the start of [s].
    [Bol] is only used at the start of a pattern, where it always holds. *)
Fixpoint re_from (p : list item) : str -> bool :=
  match p with
  | [] => fun _ => true
  | One a :: p' => rep a 1 (re_from p')
  | Opt a :: p' => fun s => rep a 1 (re_from p') s || re_from p' s
  | Star a :: p' => star a (re_from p')
  | Plus a :: p' => rep a 1 (star a (re_from p'))
  | Rep n a :: p' => rep a n (re_from p')
  | Bol :: p' => re_from p'
  | Eol :: p' => fun s => at_end s && re_from p' s
  end.

Definition re_match (p : list item) (s : str) : bool := re_from p s.

(** ** Floating point *)

Abbreviation float := spec_float.

Definition prec : Z := 53.
Definition emax : Z := 1024.

Definition float_of_Z (i : Z) : float := binary_normalize prec emax i 0 false.
Definition fmul : float -> float -> float := SFmul prec emax.
Definition fdiv : float -> float -> float := SFdiv prec emax.
Definition fleb : float -> float -> bool := SFleb.
Definition fltb : float -> float -> bool := SFltb.

Definition is_zero (f : float) : bool :=
  match f with S754_zero _ => true | _ => false end.
Definition is_finite (f : float) : bool :=
  match f with S754_zero _ | S754_finite _ _ _ => true | _ => false end.

(** Python's [/] on floats raises on a zero divisor. *)
Definition py_truediv (x y : float) : result exn float :=
  if is_zero y then raise (Builtin ZeroDivisionError) else Ok (fdiv x y).

(** [x ** 2] on a float: the square, rounded once; a finite operand whose
    square overflows raises.  (The interpreter computes it with the C
    library's [pow], whose result can differ from the rounded square in the
    last bit for some operands.) *)
Definition py_square (x : float) : result exn float :=
  let r := fmul x x in
  if is_finite x && negb (is_finite r) then raise (Builtin OverflowError) else Ok r.

(** [float(i)] for an [int]: rounded to nearest, [OverflowError] when the
    integer is too large for a float. *)
Definition py_float_of_int (i : Z) : result exn float :=
  let r := float_of_Z i in
  if is_finite r then Ok r else raise (Builtin OverflowError).

(** ** Conversions from text *)

#[local] Open Scope Z_scope.

(** The number a digit stands for: its place in the ten of its script. *)
Definition digit_value (c : N) : Z :=
  match digit_zero c with Some z => Z.of_N (c - z) | None => 0 end.
Arguments digit_value : simpl never.

(** The digits of an [int] literal: groups of digits separated by single
    underscores. *)
Fixpoint int_digits (s : str) (acc : Z) (after_digit : bool) : option Z :=
  match s with
  | [] => if after_digit then Some acc else None
  | c :: s' =>
      if is_digit c then int_digits s' (10 * acc + digit_value c) true
      else if (c =? UNDERSCORE)%N && after_digit then int_digits s' acc false
      else None
  end.

(** The number of digits of a literal; underscores do not count. *)
Fixpoint count_digits (s : str) : Z :=
  match s with
  | [] => 0
  | c :: s' => if is_digit c then 1 + count_digits s' else count_digits s'
  end.

(** [int(s)] for a [str]: white space around it is ignored, a sign may come
    first.  A literal of more than 4300 digits is refused with [ValueError]:
    the interpreter's limit on the conversion ([sys.int_info]'s
    [default_max_str_digits], from CPython 3.11 on). *)
Definition py_int (s : str) : result exn Z :=
  let t := strip s in
  let '(negative, body) :=
    match t with
    | c :: r => if (c =? MINUS)%N then (true, r)
                else if (c =? PLUS)%N then (false, r) else (false, t)
    | [] => (false, t)
    end in
  match int_digits body 0 false with
  | Some n =>
      if 4300 <? count_digits body then raise (Builtin ValueError)
      else Ok (if negative then - n else n)
  | None => raise (Builtin ValueError)
  end.

(** The run of digits at the start of [s], with the rest of [s]. *)
Fixpoint span_digits (s : str) : str * str :=
  match s with
  | c :: s' => if is_digit c then let '(d, r) := span_digits s' in (c :: d, r) else ([], s)
  | [] => ([], [])
  end.

Fixpoint digits_to_Z (ds : str) (acc : Z) : Z :=
  match ds with
  | [] => acc
  | c :: ds' => digits_to_Z ds' (10 * acc + digit_value c)
  end.

(** The binary64 number nearest to [n / 10 ^ k] (ties to even), with the
    given sign. *)
Definition float_of_decimal (negative : bool) (n : Z) (k : nat) : float :=
  match n with
  | Zpos m =>
      SFdiv prec emax (S754_finite negative m 0)
                      (S754_finite false (Z.to_pos (10 ^ Z.of_nat k)) 0)
  | _ => S754_zero negative
  end.

(** [float(s)] for a [str], on the spellings [FLOAT_PATTERN] lets through:
    an optional sign, digits, a point and digits, with white space around.
    The other spellings Python accepts (exponents, [inf], [nan], a missing
    integer or fraction part) are outside this model and answer [ValueError];
    [parse_value] calls [float] only behind the pattern. *)
Definition py_float (s : str) : result exn float :=
  let t := strip s in
  let '(negative, body) :=
    match t with
    | c :: r => if (c =? MINUS)%N then (true, r)
                else if (c =? PLUS)%N then (false, r) else (false, t)
    | [] => (false, t)
    end in
  let '(ip, rest) := span_digits body in
  match ip, rest with
  | _ :: _, c :: rest' =>
      if (c =? DOT)%N then
        let '(fp, tail) := span_digits rest' in
        match fp, tail with
        | _ :: _, [] =>
            Ok (float_of_decimal negative (digits_to_Z (ip ++ fp) 0) (length fp))
        | _, _ => raise (Builtin ValueError)
        end
      else raise (Builtin ValueError)
  | _, _ => raise (Builtin ValueError)
  end.

(** *** [datetime.date] and [datetime.time] *)

Definition is_leap (year : Z) : bool :=
  (year mod 4 =? 0) && (negb (year mod 100 =? 0) || (year mod 400 =? 0)).

Definition days_in_month (year month : Z) : Z :=
  if month =? 2 then (if is_leap year then 29 else 28)
  else if (month =? 4) || (month =? 6) || (month =? 9) || (month =? 11) then 30
  else 31.

Definition valid_date (year month day : Z) : bool :=
  (1 <=? year) && (year <=? 9999) && (1 <=? month) && (month <=? 12)
  && (1 <=? day) && (day <=? days_in_month year month).

Definition fits_c_int (i : Z) : bool := (- 2147483648 <=? i) && (i <=? 2147483647).

(** [date(year, month, day)] *)
Definition date_new (year month day : Z) : result exn value :=
  if negb (fits_c_int year && fits_c_int month && fits_c_int day)
  then raise (Builtin OverflowError)
  else if valid_date year month day then Ok (VDate year month day)
  else raise (Builtin ValueError).

Definition valid_time (hour minute : Z) : bool :=
  (0 <=? hour) && (hour <=? 23) && (0 <=? minute) && (minute <=? 59).

(** [time(hour, minute)] *)
Definition time_new (hour minute : Z) : result exn value :=
  if negb (fits_c_int hour && fits_c_int minute) then raise (Builtin OverflowError)
  else if valid_time hour minute then Ok (VTime hour minute)
  else raise (Builtin ValueError).

(** ** parser.py: [ObjectParser] *)

#[local] Open Scope nat_scope.

Definition DATE_PATTERN : list item :=
  [Bol; Rep 4 Digit; One (Lit DOT); Rep 2 Digit; One (Lit DOT); Rep 2 Digit; Eol].
Definition TIME_PATTERN : list item :=
  [Bol; Rep 2 Digit; One (Lit COLON); Rep 2 Digit; Eol].
Definition INT_PATTERN : list item :=
  [Bol; Opt (Lit MINUS); Plus Digit; Eol].
Definition FLOAT_PATTERN : list item :=
  [Bol; Opt (Lit MINUS); Plus Digit; One (Lit DOT); Plus Digit; Eol].
Definition QUOTED_STRING_PATTERN : list item :=
  [Bol; One (Lit QUOTE); Star AnyChar; One (Lit QUOTE); Eol].

(** A [dict] display: later items override earlier ones with the same key. *)
Definition dict_of_items {V} (items : list (str * V)) : gmap str V :=
  foldl (fun m kv => <[kv.1 := kv.2]> m) ∅ items.

Definition RUSSIAN_TO_ENGLISH_ITEMS : list (str * str) :=
  [ (* UserProfile *)
    (py "пол", py "gender");
    (py "гендер", py "gender");
    (py "возраст", py "age");
    (py "рост", py "height");
    (py "вес", py "weight");
    (py "цель", py "goal");
    (py "тип_активности", py "activity_type");
    (py "активность", py "activity_type");
    (py "уровень_активности", py "activity_type");
    (* Exercise *)
    (py "название", py "name");
    (py "имя", py "name");
    (py "подходы", py "sets");
    (py "повторения", py "reps_per_set");
    (py "повторы", py "reps_per_set");
    (py "повторений", py "reps_per_set");
    (py "вес", py "weight");
    (py "масса", py "weight");
    (py "примечания", py "notes");
    (* Workout *)
    (py "дата", py "date");
    (py "длительность", py "duration");
    (py "продолжительность", py "duration");
    (py "упражнения", py "exercises");
    (py "комментарии", py "notes");
    (* NutritionGoal *)
    (py "тип_цели", py "goal_type");
    (py "калории", py "calories");
    (py "белок", py "protein");
    (py "протеин", py "protein");
    (py "жиры", py "fat");
    (py "углеводы", py "carbs");
    (py "карбс", py "carbs") ].

Definition RUSSIAN_TO_ENGLISH_MAP : gmap str str :=
  dict_of_items RUSSIAN_TO_ENGLISH_ITEMS.

(** [normalized_key = key.lower().replace(' ', '_')] *)
Definition normalize_key (key : str) : str := replace SPACE UNDERSCORE (lower key).

(** [RUSSIAN_TO_ENGLISH_MAP.get(normalized_key, key)] *)
Definition _translate_key (key : str) : str :=
  let normalized_key := normalize_key key in
  default key (RUSSIAN_TO_ENGLISH_MAP !! normalized_key).

Definition _is_quoted_string (value_str : str) : bool :=
  re_match QUOTED_STRING_PATTERN value_str.

(** [value_str[1:-1]] *)
Definition _parse_quoted_string (value_str : str) : str :=
  removelast (tail value_str).

(** [except (ValueError, TypeError) as error: raise ParseError(...)] *)
Definition except_value_type {A} (e' : parse_error) (r : result exn A) : result exn A :=
  match r with
  | Err (Builtin ValueError) | Err (Builtin TypeError) => raise (ParseError e')
  | _ => r
  end.

Definition _parse_date (value_str : str) : result exn value :=
  except_value_type (BadDate value_str)
    (match split DOT value_str with
     | [y; m; d] =>
         year ← py_int y; month ← py_int m; day ← py_int d;
         date_new year month day
     | _ => raise (Builtin ValueError)
     end).

Definition _parse_time (value_str : str) : result exn value :=
  except_value_type (BadTime value_str)
    (match split COLON value_str with
     | [h; m] =>
         hours ← py_int h; minutes ← py_int m;
         if negb ((0 <=? hours)%Z && (hours <=? 23)%Z)
            || negb ((0 <=? minutes)%Z && (minutes <=? 59)%Z)
         then raise (Builtin ValueError)
         else time_new hours minutes
     | _ => raise (Builtin ValueError)
     end).

Definition parse_value (value_str : str) : result exn value :=
  except_value_type (BadValue value_str)
    (if re_match DATE_PATTERN value_str then _parse_date value_str
     else if re_match TIME_PATTERN value_str then _parse_time value_str
     else if _is_quoted_string value_str then Ok (VStr (_parse_quoted_string value_str))
     else if re_match INT_PATTERN value_str then i ← py_int value_str; Ok (VInt i)
     else if re_match FLOAT_PATTERN value_str then f ← py_float value_str; Ok (VFloat f)
     else Ok (VStr value_str)).

(** The scanner's state: the tokens so far, the token being built, and
    whether a quote is open. *)
Fixpoint tokenize_loop (chars : str) (tokens : list str) (current_token : str)
    (in_quotes : bool) : list str * str * bool :=
  match chars with
  | [] => (tokens, current_token, in_quotes)
  | char :: rest =>
      if (char =? QUOTE)%N then
        tokenize_loop rest tokens (current_token ++ [char]) (negb in_quotes)
      else if (char =? SPACE)%N && negb in_quotes then
        match current_token with
        | _ :: _ => tokenize_loop rest (tokens ++ [current_token]) [] in_quotes
        | [] => tokenize_loop rest tokens current_token in_quotes
        end
      else tokenize_loop rest tokens (current_token ++ [char]) in_quotes
  end.

Definition _tokenize_string (object_str : str) : result exn (list str) :=
  match strip object_str with
  | [] => raise (ParseError EmptyString)
  | _ :: _ =>
      let '(tokens, current_token, in_quotes) := tokenize_loop object_str [] [] false in
      if in_quotes then raise (ParseError UnclosedQuotes)
      else match current_token with
           | _ :: _ => Ok (tokens ++ [current_token])
           | [] => Ok tokens
           end
  end.

(** [isinstance(v, t)] for the five classes of the schema table. *)
Definition isinstance (v : value) (t : type_name) : bool := bool_decide (type_of v = t).

(** The loop of [validate_required_properties] over [required.items()]. *)
Fixpoint scan_required (properties : gmap str value) (required : list (str * type_name))
    (missing_properties : list str) (type_errors : list (str * type_name * type_name))
    : list str * list (str * type_name * type_name) :=
  match required with
  | [] => (missing_properties, type_errors)
  | (prop_name, prop_type) :: rest =>
      match properties !! prop_name with
      | None => scan_required properties rest (missing_properties ++ [prop_name]) type_errors
      | Some v =>
          if isinstance v prop_type
          then scan_required properties rest missing_properties type_errors
          else scan_required properties rest missing_properties
                 (type_errors ++ [(prop_name, prop_type, type_of v)])
      end
  end.

Definition validate_required_properties (object_type : str) (properties : gmap str value)
    (required : list (str * type_name)) : result exn unit :=
  let '(missing_properties, type_errors) := scan_required properties required [] [] in
  match missing_properties, type_errors with
  | [], [] => Ok tt
  | _, _ => raise (ParseError (RequiredProperties object_type missing_properties type_errors))
  end.

(** [range(start, stop, step)] for a positive step. *)
Definition py_range (start stop step : nat) : list nat :=
  map (fun k => start + k * step) (seq 0 ((stop - start + (step - 1)) / step)).

(** [tokens[i]] *)
Definition index {A} (l : list A) (i : nat) : result exn A :=
  match l !! i with
  | Some x => Ok x
  | None => raise (Builtin IndexError)
  end.

Definition member {V} (key : str) (d : gmap str V) : bool := bool_decide (is_Some (d !! key)).

(** The [for i in range(1, len(tokens), 2)] loop of [parse_object]. *)
Fixpoint assemble (tokens : list str) (indices : list nat) (properties : gmap str value)
    : result exn (gmap str value) :=
  match indices with
  | [] => Ok properties
  | i :: rest =>
      if length tokens <=? i + 1 then
        raw ← index tokens i; raise (ParseError (UnpairedKey raw))
      else
        raw ← index tokens i;
        let key := _translate_key raw in
        value_str ← index tokens (i + 1);
        if member key properties then raise (ParseError (DuplicateProperty raw key))
        else
          v ← parse_value value_str;
          assemble tokens rest (<[key := v]> properties)
  end.

Definition required_properties : list (str * list (str * type_name)) :=
  [ (py "UserProfile",
      [ (py "gender", TStr); (py "age", TInt); (py "height", TFloat);
        (py "weight", TFloat); (py "goal", TStr); (py "activity_type", TStr) ]);
    (py "Exercise",
      [ (py "name", TStr); (py "sets", TInt); (py "reps_per_set", TInt);
        (py "weight", TFloat) ]);
    (py "Workout",
      [ (py "date", TDate); (py "duration", TTime) ]);
    (py "NutritionGoal",
      [ (py "goal_type", TStr); (py "calories", TFloat); (py "protein", TFloat);
        (py "fat", TFloat); (py "carbs", TFloat) ]) ].

(** Lookup in a table written as a list of items. *)
Fixpoint assoc {V} (key : str) (items : list (str * V)) : option V :=
  match items with
  | [] => None
  | (k, v) :: rest => if bool_decide (k = key) then Some v else assoc key rest
  end.

(** The result of [parse_object]: [{'type': ..., 'properties': ...}]. *)
Record descriptor := Descriptor {
  type : str;
  properties : gmap str value;
}.

(** The handlers of [parse_object]: [except ParseError: raise], then
    [except Exception as error: raise ParseError(...)]. *)
Definition except_parse_error {A} (r : result exn A) : result exn A :=
  match r with
  | Ok a => Ok a
  | Err (ParseError e) => Err (ParseError e)
  | Err (ValidationError e) =>
      raise (ParseError (UnexpectedWhileParsing (CausedByValidation e)))
  | Err (Builtin e) => raise (ParseError (UnexpectedWhileParsing (CausedByBuiltin e)))
  end.

Definition parse_object_body (object_str : str) : result exn descriptor :=
  tokens ← _tokenize_string object_str;
  if length tokens <? 3 then raise (ParseError NotEnoughData)
  else if Nat.even (length tokens) then raise (ParseError EvenTokenCount)
  else
    object_type ← index tokens 0;
    properties ← assemble tokens (py_range 1 (length tokens) 2) ∅;
    _ ← match assoc object_type required_properties with
        | Some required => validate_required_properties object_type properties required
        | None => Ok tt
        end;
    Ok (Descriptor object_type properties).

Definition parse_object (object_str : str) : result exn descriptor :=
  except_parse_error (parse_object_body object_str).

(** ** models.py *)

#[local] Open Scope Z_scope.

(** *** Operations on dynamically typed field values *)

(** [v.lower()]: only a [str] has the method. *)
Definition py_lower (v : value) : result exn str :=
  match v with
  | VStr s => Ok (lower s)
  | _ => raise (Builtin AttributeError)
  end.

(** The exact value [m * 2 ^ e] against an integer: Python compares an [int]
    with a [float] without rounding either. *)
Definition Z_le_float (c : Z) (f : float) : bool :=
  match f with
  | S754_zero _ => c <=? 0
  | S754_infinity s => negb s
  | S754_nan => false
  | S754_finite s m e =>
      let mz := if s then Zneg m else Zpos m in
      if 0 <=? e then c <=? mz * 2 ^ e else c * 2 ^ (- e) <=? mz
  end.

Definition float_le_Z (f : float) (c : Z) : bool :=
  match f with
  | S754_zero _ => 0 <=? c
  | S754_infinity s => s
  | S754_nan => false
  | S754_finite s m e =>
      let mz := if s then Zneg m else Zpos m in
      if 0 <=? e then mz * 2 ^ e <=? c else mz <=? c * 2 ^ (- e)
  end.

Definition float_lt_Z (f : float) (c : Z) : bool :=
  match f with
  | S754_zero _ => 0 <? c
  | S754_infinity s => s
  | S754_nan => false
  | S754_finite s m e =>
      let mz := if s then Zneg m else Zpos m in
      if 0 <=? e then mz * 2 ^ e <? c else mz <? c * 2 ^ (- e)
  end.

(** [lo <= v <= hi] for integer bounds. *)
Definition py_between (lo : Z) (v : value) (hi : Z) : result exn bool :=
  match v with
  | VInt i => Ok ((lo <=? i) && (i <=? hi))
  | VFloat f => Ok (Z_le_float lo f && float_le_Z f hi)
  | _ => raise (Builtin TypeError)
  end.

(** [float(v)] for a number; anything else is not an operand of the
    arithmetic below. *)
Definition py_to_float (v : value) : result exn float :=
  match v with
  | VInt i => py_float_of_int i
  | VFloat f => Ok f
  | _ => raise (Builtin TypeError)
  end.

(** The quotient of two integers, rounded once. *)
Definition int_truediv (a b : Z) : result exn float :=
  match a, b with
  | _, Z0 => raise (Builtin ZeroDivisionError)
  | Z0, _ => Ok (S754_zero false)
  | _, _ =>
      let r := SFdiv prec emax (S754_finite (a <? 0) (Z.to_pos (Z.abs a)) 0)
                               (S754_finite (b <? 0) (Z.to_pos (Z.abs b)) 0) in
      if is_finite r then Ok r else raise (Builtin OverflowError)
  end.

(** [a / b] *)
Definition py_div (a b : value) : result exn float :=
  match a, b with
  | VInt x, VInt y => int_truediv x y
  | _, _ => x ← py_to_float a; y ← py_to_float b; py_truediv x y
  end.

(** [a * b] on numbers.  (Sequence repetition is left out: the operands the
    program multiplies have passed the range checks, which only numbers do.) *)
Definition py_mul (a b : value) : result exn value :=
  match a, b with
  | VInt x, VInt y => Ok (VInt (x * y))
  | _, _ => x ← py_to_float a; y ← py_to_float b; Ok (VFloat (fmul x y))
  end.

(** *** Binding of keyword arguments by a dataclass [__init__] *)

(** A call of a class with keyword arguments fails with [TypeError] on a
    keyword that is not a field of the class. *)
Definition unexpected_keyword (fields : list str) (kwargs : gmap str value) : bool :=
  negb (bool_decide (dom kwargs ⊆ (list_to_set fields : gset str))).

(** A field without default. *)
Definition arg (kwargs : gmap str value) (name : str) : result exn value :=
  match kwargs !! name with
  | Some v => Ok v
  | None => raise (Builtin TypeError)
  end.

Definition check (ok : bool) (e : validation_error) : result exn unit :=
  if ok then Ok tt else raise (ValidationError e).

Module UserProfile.

Record t := Build {
  пол : value;
  age : value;
  height : value;
  weight : value;
  goal : value;
  activity_type : value;
}.

Definition fields : list str :=
  [py "пол"; py "age"; py "height"; py "weight"; py "goal"; py "activity_type"].

Definition _validate_пол (self : t) : result exn unit :=
  let valid_пол := [py "мужской"; py "женский"] in
  l ← py_lower (пол self);
  check (bool_decide (l ∈ valid_пол)) (InvalidGender (пол self)).

Definition _validate_age (self : t) : result exn unit :=
  b ← py_between 1 (age self) 120; check b (InvalidAge (age self)).

Definition _validate_height (self : t) : result exn unit :=
  b ← py_between 50 (height self) 250; check b (InvalidHeight (height self)).

Definition _validate_weight (self : t) : result exn unit :=
  b ← py_between 20 (weight self) 300; check b (InvalidWeight (weight self)).

Definition _validate_goal (self : t) : result exn unit :=
  let valid_goals :=
    [py "похудение"; py "набор массы"; py "поддержание формы"; py "рельеф"] in
  l ← py_lower (goal self);
  check (bool_decide (l ∈ valid_goals)) (InvalidGoal (goal self)).

Definition _validate_activity_type (self : t) : result exn unit :=
  let valid_activities :=
    [py "низкая"; py "средняя"; py "высокая"; py "очень высокая"] in
  l ← py_lower (activity_type self);
  check (bool_decide (l ∈ valid_activities)) (InvalidActivity (activity_type self)).

Definition __post_init__ (self : t) : result exn unit :=
  _ ← _validate_пол self;
  _ ← _validate_age self;
  _ ← _validate_height self;
  _ ← _validate_weight self;
  _ ← _validate_goal self;
  _validate_activity_type self.

(** The call of [UserProfile] with keyword arguments [kwargs]. *)
Definition new (kwargs : gmap str value) : result exn t :=
  if unexpected_keyword fields kwargs then raise (Builtin TypeError)
  else
    a1 ← arg kwargs (py "пол");
    a2 ← arg kwargs (py "age");
    a3 ← arg kwargs (py "height");
    a4 ← arg kwargs (py "weight");
    a5 ← arg kwargs (py "goal");
    a6 ← arg kwargs (py "activity_type");
    let self := Build a1 a2 a3 a4 a5 a6 in
    _ ← __post_init__ self;
    Ok self.

Definition calculate_bmi (self : t) : result exn float :=
  height_m ← py_div (height self) (VInt 100);
  sq ← py_square height_m;
  py_div (weight self) (VFloat sq).

(** 18.5 is [37 / 2], exactly. *)
Definition f18_5 : float := S754_finite false 5207287069147136 (-48).

Definition get_bmi_category (self : t) : result exn str :=
  bmi ← calculate_bmi self;
  if fltb bmi f18_5 then Ok (py "Недостаточный вес")
  else if fleb f18_5 bmi && float_lt_Z bmi 25 then Ok (py "Нормальный вес")
  else if Z_le_float 25 bmi && float_lt_Z bmi 30 then Ok (py "Избыточный вес")
  else Ok (py "Ожирение").

End UserProfile.

Module Exercise.

Record t := Build {
  name : value;
  sets : value;
  reps_per_set : value;
  weight : value;
  notes : value;
}.

Definition fields : list str :=
  [py "name"; py "sets"; py "reps_per_set"; py "weight"; py "notes"].

Definition _validate_sets (self : t) : result exn unit :=
  b ← py_between 1 (sets self) 20; check b (InvalidSets (sets self)).

Definition _validate_reps (self : t) : result exn unit :=
  b ← py_between 1 (reps_per_set self) 100; check b (InvalidReps (reps_per_set self)).

Definition _validate_weight (self : t) : result exn unit :=
  b ← py_between 0 (weight self) 1000; check b (InvalidExerciseWeight (weight self)).

Definition __post_init__ (self : t) : result exn unit :=
  _ ← _validate_sets self;
  _ ← _validate_reps self;
  _validate_weight self.

(** The call of [Exercise] with keyword arguments; [notes] defaults to the
    empty string. *)
Definition new (kwargs : gmap str value) : result exn t :=
  if unexpected_keyword fields kwargs then raise (Builtin TypeError)
  else
    a1 ← arg kwargs (py "name");
    a2 ← arg kwargs (py "sets");
    a3 ← arg kwargs (py "reps_per_set");
    a4 ← arg kwargs (py "weight");
    let a5 := default (VStr []) (kwargs !! py "notes") in
    let self := Build a1 a2 a3 a4 a5 in
    _ ← __post_init__ self;
    Ok self.

(** [self.sets * self.reps_per_set * self.weight] *)
Definition calculate_volume (self : t) : result exn value :=
  p ← py_mul (sets self) (reps_per_set self);
  py_mul p (weight self).

End Exercise.

Module Workout.

(** The [exercises] field holds the list the default factory makes, or
    whatever value the caller passed. *)
Inductive exercises_field :=
| Owned (l : list Exercise.t)
| Passed (v : value).

Record t := Build {
  date : value;
  duration : value;
  exercises : exercises_field;
  notes : value;
}.

Definition fields : list str := [py "date"; py "duration"; py "exercises"; py "notes"].

(** [self.date > datetime.now().date()], with the clock's date as an
    argument. *)
Definition _validate_date (today : Z * Z * Z) (self : t) : result exn unit :=
  match date self with
  | VDate y m d =>
      let '(ty, tm, td) := today in
      let later :=
        (ty <? y) || ((ty =? y) && ((tm <? m) || ((tm =? m) && (td <? d)))) in
      if later then raise (ValidationError DateInFuture) else Ok tt
  | _ => raise (Builtin TypeError)
  end.

Definition __post_init__ (today : Z * Z * Z) (self : t) : result exn unit :=
  _validate_date today self.

Definition new (today : Z * Z * Z) (kwargs : gmap str value) : result exn t :=
  if unexpected_keyword fields kwargs then raise (Builtin TypeError)
  else
    a1 ← arg kwargs (py "date");
    a2 ← arg kwargs (py "duration");
    let a3 := from_option Passed (Owned []) (kwargs !! py "exercises") in
    let a4 := default (VStr []) (kwargs !! py "notes") in
    let self := Build a1 a2 a3 a4 in
    _ ← __post_init__ today self;
    Ok self.

End Workout.

Module NutritionGoal.

Record t := Build {
  goal_type : value;
  calories : value;
  protein : value;
  fat : value;
  carbs : value;
}.

Definition fields : list str :=
  [py "goal_type"; py "calories"; py "protein"; py "fat"; py "carbs"].

Definition _validate_goal_type (self : t) : result exn unit :=
  let valid_goals := [py "похудение"; py "поддержание"; py "набор массы"] in
  l ← py_lower (goal_type self);
  check (bool_decide (l ∈ valid_goals)) (InvalidGoalType (goal_type self)).

Definition _validate_calories (self : t) : result exn unit :=
  b ← py_between 500 (calories self) 5000; check b (InvalidCalories (calories self)).

Definition _validate_macronutrients (self : t) : result exn unit :=
  b1 ← py_between 0 (protein self) 500;
  _ ← check b1 (InvalidProtein (protein self));
  b2 ← py_between 0 (fat self) 200;
  _ ← check b2 (InvalidFat (fat self));
  b3 ← py_between 0 (carbs self) 1000;
  check b3 (InvalidCarbs (carbs self)).

Definition __post_init__ (self : t) : result exn unit :=
  _ ← _validate_goal_type self;
  _ ← _validate_calories self;
  _validate_macronutrients self.

Definition new (kwargs : gmap str value) : result exn t :=
  if unexpected_keyword fields kwargs then raise (Builtin TypeError)
  else
    a1 ← arg kwargs (py "goal_type");
    a2 ← arg kwargs (py "calories");
    a3 ← arg kwargs (py "protein");
    a4 ← arg kwargs (py "fat");
    a5 ← arg kwargs (py "carbs");
    let self := Build a1 a2 a3 a4 a5 in
    _ ← __post_init__ self;
    Ok self.

End NutritionGoal.

(** ** parser.py: [ObjectFactory] and [create_object_from_string] *)

Inductive domain_object :=
| AUserProfile (o : UserProfile.t)
| AnExercise (o : Exercise.t)
| AWorkout (o : Workout.t)
| ANutritionGoal (o : NutritionGoal.t).

(** The classes of [OBJECT_CLASSES], each as its call with the properties as
    keyword arguments; [today] is the date the clock shows during the call. *)
Definition OBJECT_CLASSES
    : list (str * (Z * Z * Z -> gmap str value -> result exn domain_object)) :=
  [ (py "UserProfile", fun _ kw => o ← UserProfile.new kw; Ok (AUserProfile o));
    (py "Exercise", fun _ kw => o ← Exercise.new kw; Ok (AnExercise o));
    (py "Workout", fun today kw => o ← Workout.new today kw; Ok (AWorkout o));
    (py "NutritionGoal", fun _ kw => o ← NutritionGoal.new kw; Ok (ANutritionGoal o)) ].

(** The handlers of [create_object]: [except ValidationError: raise], then
    [except TypeError as error: raise ParseError(...)]. *)
Definition except_type_error {A} (object_type : str) (r : result exn A) : result exn A :=
  match r with
  | Err (Builtin TypeError) => raise (ParseError (ConstructionFailed object_type))
  | _ => r
  end.

Definition create_object (today : Z * Z * Z) (parsed_data : descriptor)
    : result exn domain_object :=
  let object_type := type parsed_data in
  let properties := properties parsed_data in
  match assoc object_type OBJECT_CLASSES with
  | None => raise (ParseError (UnknownObjectType object_type))
  | Some object_class => except_type_error object_type (object_class today properties)
  end.

(** The handlers of [create_object_from_string]:
    [except (ParseError, ValidationError): raise], then
    [except Exception as error: raise ParseError(...)]. *)
Definition except_unexpected {A} (r : result exn A) : result exn A :=
  match r with
  | Err (Builtin e) => raise (ParseError (Unexpected e))
  | _ => r
  end.

Definition create_object_from_string (today : Z * Z * Z) (object_str : str)
    : result exn domain_object :=
  except_unexpected
    (parsed_data ← parse_object object_str; create_object today parsed_data).

(** ** Vocabulary of the statements *)

(** The number a run of digits writes. *)
Definition number (ds : str) : Z := digits_to_Z ds 0.

(** What follows from [\d] matching a character. *)
Record digit_like (c : N) : Prop := {
  dl_digit : is_digit c = true;
  dl_space : isspace c = false;
  dl_dot : (c =? DOT)%N = false;
  dl_colon : (c =? COLON)%N = false;
  dl_minus : (c =? MINUS)%N = false;
  dl_plus : (c =? PLUS)%N = false;
  dl_quote : (c =? QUOTE)%N = false;
  dl_value : 0 <= digit_value c <= 9;
}.

(** The two lists of [validate_required_properties] as the specification
    words them: the required keys that are absent, and the required keys whose
    value has another type, with the expected and the actual type. *)
Definition spec_missing (properties : gmap str value) (required : list (str * type_name))
    : list str :=
  omap (fun '(k, t) => match properties !! k with None => Some k | Some _ => None end) required.

Definition spec_type_mismatches (properties : gmap str value)
    (required : list (str * type_name)) : list (str * type_name * type_name) :=
  omap (fun '(k, t) =>
          match properties !! k with
          | Some v => if bool_decide (type_of v = t) then None else Some (k, t, type_of v)
          | None => None
          end) required.

(** The text [validate_required_properties] raises its error with. *)
Definition type_name_str (t : type_name) : str :=
  match t with
  | TStr => py "str"
  | TInt => py "int"
  | TFloat => py "float"
  | TDate => py "date"
  | TTime => py "time"
  end.

Definition render_type_error (te : str * type_name * type_name) : str :=
  let '(prop_name, prop_type, actual) := te in
  prop_name ++ py ": ожидался " ++ type_name_str prop_type
    ++ py ", получен " ++ type_name_str actual.

Definition required_properties_message (object_type : str) (missing_properties : list str)
    (type_errors : list (str * type_name * type_name)) : str :=
  let error_messages :=
    match missing_properties with
    | [] => []
    | _ => [py "Отсутствуют обязательные свойства: " ++ join (py ", ") missing_properties]
    end ++
    match type_errors with
    | [] => []
    | _ => [py "Ошибки типов: " ++ join (py "; ") (map render_type_error type_errors)]
    end in
  py "Ошибка валидации " ++ object_type ++ py ": " ++ join (py ". ") error_messages.

(** [x] is a substring of [s]. *)
Definition occurs_in (x s : str) : Prop := exists a b, s = a ++ x ++ b.

(** The errors [parse_object] can end with. *)
Inductive descriptor_error : exn -> Prop :=
| de_empty : descriptor_error (ParseError EmptyString)
| de_quotes : descriptor_error (ParseError UnclosedQuotes)
| de_few : descriptor_error (ParseError NotEnoughData)
| de_even : descriptor_error (ParseError EvenTokenCount)
| de_duplicate raw key : descriptor_error (ParseError (DuplicateProperty raw key))
| de_date s : descriptor_error (ParseError (BadDate s))
| de_time s : descriptor_error (ParseError (BadTime s))
| de_value s : descriptor_error (ParseError (BadValue s))
| de_required t m te : descriptor_error (ParseError (RequiredProperties t m te)).

Definition not_parse_error (e : exn) : Prop :=
  match e with ParseError _ => False | _ => True end.

Definition raises_only (P : exn -> Prop) {A} (r : result exn A) : Prop :=
  forall e, r = Err e -> P e.

(** The lines of the scenarios. *)
Definition profile_line : str :=
  py "UserProfile gender " ++ quoted (py "мужской")
    ++ py " age 25 height 180.5 weight 75.0 goal " ++ quoted (py "похудение")
    ++ py " activity_type " ++ quoted (py "средняя").

Definition age_150_line : str :=
  py "UserProfile gender " ++ quoted (py "мужской")
    ++ py " age 150 height 180.5 weight 75.0 goal " ++ quoted (py "похудение")
    ++ py " activity_type " ++ quoted (py "средняя").

Definition exercise_line : str :=
  py "Exercise name " ++ quoted (py "Приседания") ++ py " sets 4 reps_per_set 10 weight 60.0".

Definition squats : Exercise.t :=
  Exercise.Build (VStr (py "Приседания")) (VInt 4) (VInt 10) (VFloat (float_of_Z 60)) (VStr []).

(** The keyword arguments of the profile of the first scenario, under the
    names of the fields of the class. *)
Definition profile_kwargs (age : Z) : gmap str value :=
  dict_of_items
    [ (py "пол", VStr (py "мужской")); (py "age", VInt age);
      (py "height", VFloat (float_of_decimal false 1805 1));
      (py "weight", VFloat (float_of_decimal false 750 1));
      (py "goal", VStr (py "похудение")); (py "activity_type", VStr (py "средняя")) ].

(** A mapping with two required keys of a profile, both of the wrong type,
    as [UserProfile age 1.5 weight 3] gives it. *)
Definition mistyped_properties : gmap str value :=
  dict_of_items [ (py "age", VFloat (float_of_decimal false 15 1)); (py "weight", VInt 3) ].

Definition user_profile_required : list (str * type_name) :=
  default [] (assoc (py "UserProfile") required_properties).

Definition is_user_profile (r : result exn domain_object) : bool :=
  match r with Ok (AUserProfile _) => true | _ => false end.

Definition is_validation_error {A} (r : result exn A) : bool :=
  match r with Err (ValidationError _) => true | _ => false end.

(** * Proofs *)

(** ** The result monad *)

Lemma bind_ok {E A B} (f : A -> result E B) (a : A) : (Ok a ≫= f) = f a.
Proof. reflexivity. Qed.

Lemma bind_err {E A B} (f : A -> result E B) (e : E) : (Err e ≫= f) = Err e.
Proof. reflexivity. Qed.

Lemma bind_ok_inv {E A B} (m : result E A) (f : A -> result E B) (b : B) :
  (m ≫= f) = Ok b -> exists a, m = Ok a /\ f a = Ok b.
Proof. destruct m as [a|e]; [eauto | discriminate]. Qed.

Lemma raises_only_ok P {A} (a : A) : raises_only P (Ok a).
Proof. intros e. discriminate. Qed.

Lemma raises_only_err (P : exn -> Prop) {A} e : P e -> raises_only P (@Err exn A e).
Proof. intros H e' [= <-]. exact H. Qed.

Lemma raises_only_bind P {A B} (m : result exn A) (f : A -> result exn B) :
  raises_only P m -> (forall a, raises_only P (f a)) -> raises_only P (m ≫= f).
Proof.
  intros Hm Hf e. destruct m as [a|e0]; simpl.
  - apply Hf.
  - intros [= <-]. apply Hm. reflexivity.
Qed.

(** ** Patterns *)

Lemma star_inv a k s :
  star a k s = true ->
  exists ds rest, s = ds ++ rest /\ Forall (fun c => atom_match a c = true) ds /\ k rest = true.
Proof.
  induction s as [|c s IH]; simpl; intros H.
  - exists [], []. auto.
  - apply orb_true_iff in H as [H|H].
    + apply andb_true_iff in H as [Hc Hs].
      destruct (IH Hs) as (ds & rest & -> & Hds & Hk).
      exists (c :: ds), rest. auto.
    + exists [], (c :: s). auto.
Qed.

Lemma at_end_inv s : at_end s = true -> s = [] \/ s = [NEWLINE].
Proof.
  destruct s as [|c [|c' s]]; simpl; intros H; auto; try discriminate.
  apply N.eqb_eq in H. subst. auto.
Qed.

Lemma digit_zero_inv c z :
  digit_zero c = Some z -> In z DIGIT_ZEROS /\ (z <= c <= z + 9)%N.
Proof.
  unfold digit_zero. intros H. apply find_some in H as [Hin H].
  apply andb_true_iff in H as [H1 H2]. apply N.leb_le in H1, H2. auto.
Qed.

(** The 660 digits, one by one: none is white space, a point, a colon, a
    sign or a quote, and each stands for a number from 0 to 9. *)
Lemma digits_are_plain :
  forallb (fun z =>
    forallb (fun k =>
      let c := (z + N.of_nat k)%N in
      is_digit c && negb (isspace c) && negb (c =? DOT)%N && negb (c =? COLON)%N
      && negb (c =? MINUS)%N && negb (c =? PLUS)%N && negb (c =? QUOTE)%N
      && (0 <=? digit_value c) && (digit_value c <=? 9)) (seq 0 10)) DIGIT_ZEROS = true.
Proof. vm_compute. reflexivity. Qed.

Lemma digit_facts c : is_digit c = true -> digit_like c.
Proof.
  unfold is_digit. destruct (digit_zero c) as [z|] eqn:E; [intros _|discriminate].
  apply digit_zero_inv in E as [Hin Hc].
  pose proof digits_are_plain as H. rewrite forallb_forall in H. specialize (H z Hin).
  rewrite forallb_forall in H. specialize (H (N.to_nat (c - z))).
  rewrite N2Nat.id in H. replace (z + (c - z))%N with c in H by lia.
  assert (Hk : In (N.to_nat (c - z)) (seq 0 10)) by (apply in_seq; lia).
  apply H in Hk. cbv zeta in Hk. rewrite !andb_true_iff, !negb_true_iff in Hk.
  destruct Hk as ((((((((H1 & H2) & H3) & H4) & H5) & H6) & H7) & H8) & H9).
  apply Z.leb_le in H8, H9. split; auto.
Qed.

Ltac use_digits :=
  repeat match goal with
  | H : is_digit ?c = true |- _ =>
      let D := fresh "D" in
      pose proof (digit_facts c H) as D; clear H
  end.

Ltac rewrite_digits :=
  repeat (simpl;
    repeat match goal with
    | D : digit_like ?c |- _ =>
        progress rewrite ?(dl_digit c D), ?(dl_space c D), ?(dl_dot c D), ?(dl_colon c D),
          ?(dl_minus c D), ?(dl_plus c D), ?(dl_quote c D)
    end).

Ltac digit_bounds :=
  unfold number; simpl;
  repeat match goal with
  | D : digit_like ?c |- _ => pose proof (dl_value c D); clear D
  end; lia.

Lemma date_pattern_inv s :
  re_match DATE_PATTERN s = true ->
  exists c1 c2 c3 c4 c5 c6 c7 c8 nl,
    s = [c1; c2; c3; c4; DOT; c5; c6; DOT; c7; c8] ++ nl /\
    Forall (fun c => is_digit c = true) [c1; c2; c3; c4; c5; c6; c7; c8] /\
    (nl = [] \/ nl = [NEWLINE]).
Proof.
  unfold re_match, DATE_PATTERN. simpl. intros H.
  repeat (destruct s as [|? s]; [discriminate|]; apply andb_true_iff in H as [? H]).
  apply andb_true_iff in H as [H _]. apply at_end_inv in H.
  repeat match goal with Hd : (_ =? _)%N = true |- _ => apply N.eqb_eq in Hd; subst end.
  do 8 eexists. exists s. split; [reflexivity|]. split; [|assumption].
  repeat constructor; assumption.
Qed.

Lemma small_number_fits z : 0 <= z <= 9999 -> fits_c_int z = true.
Proof. intros Hz. unfold fits_c_int. apply andb_true_iff; split; apply Z.leb_le; lia. Qed.

Lemma parse_date_digits c1 c2 c3 c4 c5 c6 c7 c8 nl :
  Forall (fun c => is_digit c = true) [c1; c2; c3; c4; c5; c6; c7; c8] ->
  nl = [] \/ nl = [NEWLINE] ->
  let s := [c1; c2; c3; c4; DOT; c5; c6; DOT; c7; c8] ++ nl in
  let y := number [c1; c2; c3; c4] in
  let m := number [c5; c6] in
  let d := number [c7; c8] in
  _parse_date s = if valid_date y m d then Ok (VDate y m d) else Err (ParseError (BadDate s)).
Proof.
  intros Hd Hnl s y m d.
  repeat match goal with H : Forall _ (_ :: _) |- _ => inversion H; clear H; subst end.
  use_digits.
  assert (Hy : 0 <= y <= 9999) by (subst y; digit_bounds).
  assert (Hm : 0 <= m <= 99) by (subst m; digit_bounds).
  assert (Hdd : 0 <= d <= 99) by (subst d; digit_bounds).
  unfold _parse_date, split, py_int, strip.
  destruct Hnl as [-> | ->]; subst s; rewrite_digits;
    change (date_new _ _ _) with (date_new y m d); unfold date_new;
    rewrite (small_number_fits y), (small_number_fits m), (small_number_fits d) by lia;
    simpl; destruct (valid_date y m d); reflexivity.
Qed.

Lemma time_pattern_inv s :
  re_match TIME_PATTERN s = true ->
  exists c1 c2 c3 c4 nl,
    s = [c1; c2; COLON; c3; c4] ++ nl /\
    Forall (fun c => is_digit c = true) [c1; c2; c3; c4] /\
    (nl = [] \/ nl = [NEWLINE]).
Proof.
  unfold re_match, TIME_PATTERN. simpl. intros H.
  repeat (destruct s as [|? s]; [discriminate|]; apply andb_true_iff in H as [? H]).
  apply andb_true_iff in H as [H _]. apply at_end_inv in H.
  repeat match goal with Hd : (_ =? _)%N = true |- _ => apply N.eqb_eq in Hd; subst end.
  do 4 eexists. exists s. split; [reflexivity|]. split; [|assumption].
  repeat constructor; assumption.
Qed.

Lemma parse_time_digits c1 c2 c3 c4 nl :
  Forall (fun c => is_digit c = true) [c1; c2; c3; c4] ->
  nl = [] \/ nl = [NEWLINE] ->
  let s := [c1; c2; COLON; c3; c4] ++ nl in
  let h := number [c1; c2] in
  let m := number [c3; c4] in
  _parse_time s = if valid_time h m then Ok (VTime h m) else Err (ParseError (BadTime s)).
Proof.
  intros Hd Hnl s h m.
  repeat match goal with H : Forall _ (_ :: _) |- _ => inversion H; clear H; subst end.
  use_digits.
  assert (Hh : 0 <= h <= 99) by (subst h; digit_bounds).
  assert (Hm : 0 <= m <= 99) by (subst m; digit_bounds).
  unfold _parse_time, split, py_int, strip.
  destruct Hnl as [-> | ->]; subst s; rewrite_digits;
    change (10 * (10 * 0 + digit_value c1) + digit_value c2) with h;
    change (10 * (10 * 0 + digit_value c3) + digit_value c4) with m;
    unfold time_new, valid_time;
    rewrite (small_number_fits h), (small_number_fits m) by lia;
    destruct (0 <=? h), (h <=? 23), (0 <=? m), (m <=? 59); reflexivity.
Qed.

Lemma time_not_date s : re_match TIME_PATTERN s = true -> re_match DATE_PATTERN s = false.
Proof.
  intros H. apply time_pattern_inv in H as (c1 & c2 & c3 & c4 & nl & -> & Hd & _).
  repeat match goal with H : Forall _ (_ :: _) |- _ => inversion H; clear H; subst end.
  unfold re_match, DATE_PATTERN. simpl.
  repeat match goal with H : is_digit _ = true |- _ => rewrite H; clear H end.
  reflexivity.
Qed.

(** ** [strip], [int] and [float] on what the patterns let through *)

Lemma lstrip_nonspace t : Forall (fun c => isspace c = false) t -> lstrip t = t.
Proof. destruct 1 as [|c t Hc _]; simpl; [reflexivity|]. rewrite Hc. reflexivity. Qed.

Lemma lstrip_spaces_app sp t :
  Forall (fun c => isspace c = true) sp -> lstrip (sp ++ t) = lstrip t.
Proof. induction 1 as [|c sp Hc _ IH]; simpl; [reflexivity|]. rewrite Hc. exact IH. Qed.

Lemma strip_nonspace x nl :
  Forall (fun c => isspace c = false) x -> Forall (fun c => isspace c = true) nl ->
  strip (x ++ nl) = x.
Proof.
  intros Hx Hnl. unfold strip.
  assert (E : lstrip (x ++ nl) = x ++ nl \/ x = []).
  { destruct Hx as [|c x Hc Hx]; [right; reflexivity|left]. simpl. rewrite Hc. reflexivity. }
  destruct E as [E | ->].
  - rewrite E, rev_app_distr, lstrip_spaces_app by (apply Forall_rev; exact Hnl).
    rewrite lstrip_nonspace by (apply Forall_rev; exact Hx). apply rev_involutive.
  - simpl. rewrite <- (app_nil_r nl) at 1. rewrite lstrip_spaces_app by exact Hnl. simpl.
    reflexivity.
Qed.

Lemma int_digits_digits ds acc b :
  Forall (fun c => is_digit c = true) ds -> ds <> [] ->
  int_digits ds acc b = Some (digits_to_Z ds acc).
Proof.
  intros Hds. revert acc b.
  induction Hds as [|c ds Hc Hds IH]; intros acc b Hne; [congruence|].
  simpl. rewrite Hc. destruct ds as [|c' ds']; [reflexivity|].
  apply IH. discriminate.
Qed.

Lemma span_digits_app ds rest :
  Forall (fun c => is_digit c = true) ds ->
  (forall c r, rest = c :: r -> is_digit c = false) ->
  span_digits (ds ++ rest) = (ds, rest).
Proof.
  intros Hds Hrest. induction Hds as [|c ds Hc Hds IH]; simpl.
  - destruct rest as [|c r]; simpl; [reflexivity|]. rewrite (Hrest c r eq_refl). reflexivity.
  - rewrite Hc, IH. reflexivity.
Qed.

Lemma nl_spaces nl : nl = [] \/ nl = [NEWLINE] -> Forall (fun c => isspace c = true) nl.
Proof. intros [-> | ->]; repeat constructor. Qed.

Lemma digits_nonspace ds :
  Forall (fun c => is_digit c = true) ds -> Forall (fun c => isspace c = false) ds.
Proof.
  intros H. eapply Forall_impl; [exact H|].
  intros c Hc. apply (dl_space c (digit_facts c Hc)).
Qed.

Lemma int_pattern_inv s :
  re_match INT_PATTERN s = true ->
  exists sign ds nl,
    s = sign ++ ds ++ nl /\ (sign = [] \/ sign = [MINUS]) /\
    ds <> [] /\ Forall (fun c => is_digit c = true) ds /\ (nl = [] \/ nl = [NEWLINE]).
Proof.
  unfold re_match, INT_PATTERN. simpl.
  assert (K : forall t, rep Digit 1 (star Digit (fun s => at_end s && true)) t = true ->
            exists ds nl, t = ds ++ nl /\ ds <> [] /\
              Forall (fun c => is_digit c = true) ds /\ (nl = [] \/ nl = [NEWLINE])).
  { intros [|c t]; simpl; [discriminate|]. intros H.
    apply andb_true_iff in H as [Hc H]. apply star_inv in H as (ds & nl & -> & Hds & Hnl).
    apply andb_true_iff in Hnl as [Hnl _]. apply at_end_inv in Hnl.
    exists (c :: ds), nl. split; [reflexivity|]. split; [discriminate|]. split; auto. }
  intros H. apply orb_true_iff in H as [H|H].
  - destruct s as [|c s]; [discriminate|]. simpl in H.
    apply andb_true_iff in H as [Hc H]. apply N.eqb_eq in Hc. subst c.
    destruct (K s H) as (ds & nl & -> & ?). exists [MINUS], ds, nl. intuition.
  - destruct (K s H) as (ds & nl & -> & ?). exists [], ds, nl. intuition.
Qed.

Lemma count_digits_digits ds :
  Forall (fun c => is_digit c = true) ds -> count_digits ds = Z.of_nat (length ds).
Proof.
  induction 1 as [|c ds Hc _ IH]; [reflexivity|].
  cbn [count_digits length]. rewrite Hc, IH. lia.
Qed.

Lemma count_digits_app a b : count_digits (a ++ b) = count_digits a + count_digits b.
Proof.
  induction a as [|c a IH]; [reflexivity|]. cbn [app count_digits].
  destruct (is_digit c); lia.
Qed.

(** The digits of a token of the int pattern are those after its sign. *)
Lemma count_digits_signed sign ds nl :
  (sign = [] \/ sign = [MINUS]) -> Forall (fun c => is_digit c = true) ds ->
  (nl = [] \/ nl = [NEWLINE]) ->
  count_digits (sign ++ ds ++ nl) = Z.of_nat (length ds).
Proof.
  intros Hsign Hds Hnl. rewrite !count_digits_app, (count_digits_digits ds Hds).
  destruct Hsign as [-> | ->], Hnl as [-> | ->]; vm_compute (count_digits _); lia.
Qed.

Lemma py_int_signed sign ds nl :
  (sign = [] \/ sign = [MINUS]) -> ds <> [] ->
  Forall (fun c => is_digit c = true) ds -> (nl = [] \/ nl = [NEWLINE]) ->
  py_int (sign ++ ds ++ nl) =
    if 4300 <? Z.of_nat (length ds) then Err (Builtin ValueError)
    else Ok (if bool_decide (sign = []) then number ds else - number ds).
Proof.
  intros Hsign Hne Hds Hnl. unfold py_int.
  rewrite app_assoc, strip_nonspace.
  2:{ apply Forall_app. split; [|apply digits_nonspace; exact Hds].
      destruct Hsign as [-> | ->]; repeat constructor. }
  2:{ apply nl_spaces, Hnl. }
  destruct Hsign as [-> | ->].
  - change ([] ++ ds) with ds. destruct ds as [|c ds]; [congruence|].
    inversion Hds as [|? ? Hc Hds']; subst. cbv beta iota.
    rewrite (dl_minus c (digit_facts c Hc)), (dl_plus c (digit_facts c Hc)).
    rewrite int_digits_digits by (auto; discriminate).
    rewrite (count_digits_digits _ Hds). unfold raise.
    destruct (4300 <? _); reflexivity.
  - change ([MINUS] ++ ds) with (MINUS :: ds). cbv beta iota. rewrite N.eqb_refl.
    rewrite int_digits_digits by auto. rewrite (count_digits_digits _ Hds). unfold raise.
    destruct (4300 <? _); reflexivity.
Qed.

Lemma float_pattern_inv s :
  re_match FLOAT_PATTERN s = true ->
  exists sign ip fp nl,
    s = sign ++ ip ++ DOT :: fp ++ nl /\ (sign = [] \/ sign = [MINUS]) /\
    ip <> [] /\ Forall (fun c => is_digit c = true) ip /\
    fp <> [] /\ Forall (fun c => is_digit c = true) fp /\ (nl = [] \/ nl = [NEWLINE]).
Proof.
  unfold re_match, FLOAT_PATTERN. simpl.
  assert (K : forall t,
    rep Digit 1 (star Digit (rep (Lit DOT) 1
      (rep Digit 1 (star Digit (fun s => at_end s && true))))) t = true ->
    exists ip fp nl, t = ip ++ DOT :: fp ++ nl /\ ip <> [] /\
      Forall (fun c => is_digit c = true) ip /\ fp <> [] /\
      Forall (fun c => is_digit c = true) fp /\ (nl = [] \/ nl = [NEWLINE])).
  { intros [|c t]; simpl; [discriminate|]. intros H.
    apply andb_true_iff in H as [Hc H]. apply star_inv in H as (ip & r & -> & Hip & H).
    destruct r as [|d r]; simpl in H; [discriminate|].
    apply andb_true_iff in H as [Hd H]. apply N.eqb_eq in Hd. subst d.
    destruct r as [|c' r]; simpl in H; [discriminate|].
    apply andb_true_iff in H as [Hc' H]. apply star_inv in H as (fp & nl & -> & Hfp & Hnl).
    apply andb_true_iff in Hnl as [Hnl _]. apply at_end_inv in Hnl.
    exists (c :: ip), (c' :: fp), nl. split; [reflexivity|]. split; [discriminate|].
    split; [auto|]. split; [discriminate|]. split; auto. }
  intros H. apply orb_true_iff in H as [H|H].
  - destruct s as [|c s]; [discriminate|]. simpl in H.
    apply andb_true_iff in H as [Hc H]. apply N.eqb_eq in Hc. subst c.
    destruct (K s H) as (ip & fp & nl & -> & ?). exists [MINUS], ip, fp, nl. intuition.
  - destruct (K s H) as (ip & fp & nl & -> & ?). exists [], ip, fp, nl. intuition.
Qed.

Lemma py_float_signed sign ip fp nl :
  (sign = [] \/ sign = [MINUS]) -> ip <> [] -> Forall (fun c => is_digit c = true) ip ->
  fp <> [] -> Forall (fun c => is_digit c = true) fp -> (nl = [] \/ nl = [NEWLINE]) ->
  py_float (sign ++ ip ++ DOT :: fp ++ nl) =
    Ok (float_of_decimal (bool_decide (sign = [MINUS])) (number (ip ++ fp)) (length fp)).
Proof.
  intros Hsign Hne Hip Hnf Hfp Hnl. unfold py_float.
  replace (sign ++ ip ++ DOT :: fp ++ nl) with ((sign ++ ip ++ DOT :: fp) ++ nl)
    by (rewrite <- !app_assoc; reflexivity).
  rewrite strip_nonspace.
  2:{ apply Forall_app. split; [destruct Hsign as [-> | ->]; repeat constructor|].
      apply Forall_app. split; [apply digits_nonspace; exact Hip|].
      constructor; [reflexivity|apply digits_nonspace; exact Hfp]. }
  2:{ apply nl_spaces, Hnl. }
  assert (Hspan1 : span_digits (ip ++ DOT :: fp) = (ip, DOT :: fp)).
  { apply span_digits_app; [exact Hip|]. intros c r [= <- <-]. reflexivity. }
  assert (Hspan2 : span_digits fp = (fp, [])).
  { rewrite <- (app_nil_r fp) at 1. apply span_digits_app; [exact Hfp|]. discriminate. }
  destruct ip as [|c ip']; [congruence|].
  inversion Hip as [|? ? Hc Hip']; subst.
  pose proof (digit_facts c Hc) as D.
  destruct fp as [|c' fp']; [congruence|].
  destruct Hsign as [-> | ->].
  - change ([] ++ (c :: ip') ++ DOT :: c' :: fp') with (c :: (ip' ++ DOT :: c' :: fp')).
    cbv beta iota. rewrite (dl_minus c D), (dl_plus c D).
    change (c :: ip' ++ DOT :: c' :: fp') with ((c :: ip') ++ DOT :: c' :: fp').
    rewrite Hspan1. cbv beta iota. rewrite N.eqb_refl, Hspan2. reflexivity.
  - change ([MINUS] ++ (c :: ip') ++ DOT :: c' :: fp')
      with (MINUS :: ((c :: ip') ++ DOT :: c' :: fp')).
    cbv beta iota. rewrite N.eqb_refl.
    rewrite Hspan1. cbv beta iota. rewrite N.eqb_refl, Hspan2. reflexivity.
Qed.

(** ** Value inference *)

Lemma parse_value_date s :
  re_match DATE_PATTERN s = true ->
  exists c1 c2 c3 c4 c5 c6 c7 c8 nl,
    s = [c1; c2; c3; c4; DOT; c5; c6; DOT; c7; c8] ++ nl /\
    Forall (fun c => is_digit c = true) [c1; c2; c3; c4; c5; c6; c7; c8] /\
    (nl = [] \/ nl = [NEWLINE]) /\
    let y := number [c1; c2; c3; c4] in
    let m := number [c5; c6] in
    let d := number [c7; c8] in
    parse_value s =
      if valid_date y m d then Ok (VDate y m d) else Err (ParseError (BadDate s)).
Proof.
  intros H. unfold parse_value. rewrite H.
  apply date_pattern_inv in H as (c1 & c2 & c3 & c4 & c5 & c6 & c7 & c8 & nl & -> & Hd & Hnl).
  exists c1, c2, c3, c4, c5, c6, c7, c8, nl.
  split; [reflexivity|]. split; [assumption|]. split; [assumption|].
  cbv zeta. rewrite (parse_date_digits _ _ _ _ _ _ _ _ _ Hd Hnl).
  cbv zeta. destruct (valid_date _ _ _); reflexivity.
Qed.

Lemma parse_value_time s :
  re_match TIME_PATTERN s = true ->
  exists c1 c2 c3 c4 nl,
    s = [c1; c2; COLON; c3; c4] ++ nl /\
    Forall (fun c => is_digit c = true) [c1; c2; c3; c4] /\
    (nl = [] \/ nl = [NEWLINE]) /\
    let h := number [c1; c2] in
    let m := number [c3; c4] in
    parse_value s =
      if valid_time h m then Ok (VTime h m) else Err (ParseError (BadTime s)).
Proof.
  intros H. unfold parse_value. rewrite (time_not_date s H), H.
  apply time_pattern_inv in H as (c1 & c2 & c3 & c4 & nl & -> & Hd & Hnl).
  exists c1, c2, c3, c4, nl.
  split; [reflexivity|]. split; [assumption|]. split; [assumption|].
  cbv zeta. rewrite (parse_time_digits _ _ _ _ _ Hd Hnl).
  cbv zeta. destruct (valid_time _ _); reflexivity.
Qed.

Lemma parse_value_int s :
  re_match DATE_PATTERN s = false -> re_match TIME_PATTERN s = false ->
  _is_quoted_string s = false -> re_match INT_PATTERN s = true ->
  exists sign ds nl,
    s = sign ++ ds ++ nl /\ (sign = [] \/ sign = [MINUS]) /\
    count_digits s = Z.of_nat (length ds) /\
    parse_value s =
      if 4300 <? count_digits s then Err (ParseError (BadValue s))
      else Ok (VInt (if bool_decide (sign = []) then number ds else - number ds)).
Proof.
  intros H1 H2 H3 H4. unfold parse_value. rewrite H1, H2, H3, H4.
  apply int_pattern_inv in H4 as (sign & ds & nl & -> & Hs & Hne & Hds & Hnl).
  exists sign, ds, nl. split; [reflexivity|]. split; [assumption|].
  rewrite (count_digits_signed _ _ _ Hs Hds Hnl). split; [reflexivity|].
  rewrite py_int_signed by assumption.
  destruct (4300 <? _); reflexivity.
Qed.

Lemma parse_value_float s :
  re_match DATE_PATTERN s = false -> re_match TIME_PATTERN s = false ->
  _is_quoted_string s = false -> re_match INT_PATTERN s = false ->
  re_match FLOAT_PATTERN s = true ->
  exists sign ip fp nl,
    s = sign ++ ip ++ DOT :: fp ++ nl /\ (sign = [] \/ sign = [MINUS]) /\
    parse_value s =
      Ok (VFloat (float_of_decimal (bool_decide (sign = [MINUS]))
                    (number (ip ++ fp)) (length fp))).
Proof.
  intros H1 H2 H3 H4 H5. unfold parse_value. rewrite H1, H2, H3, H4, H5.
  apply float_pattern_inv in H5
    as (sign & ip & fp & nl & -> & Hs & Hne & Hip & Hnf & Hfp & Hnl).
  exists sign, ip, fp, nl. split; [reflexivity|]. split; [assumption|].
  rewrite py_float_signed by assumption. reflexivity.
Qed.

Lemma parse_value_result s :
  (exists v, parse_value s = Ok v) \/
  parse_value s = Err (ParseError (BadDate s)) \/
  parse_value s = Err (ParseError (BadTime s)) \/
  parse_value s = Err (ParseError (BadValue s)).
Proof.
  destruct (re_match DATE_PATTERN s) eqn:H1.
  { destruct (parse_value_date s H1)
      as (c1 & c2 & c3 & c4 & c5 & c6 & c7 & c8 & nl & _ & _ & _ & E).
    cbv zeta in E. rewrite E. destruct (valid_date _ _ _); eauto. }
  destruct (re_match TIME_PATTERN s) eqn:H2.
  { destruct (parse_value_time s H2) as (c1 & c2 & c3 & c4 & nl & _ & _ & _ & E).
    cbv zeta in E. rewrite E. destruct (valid_time _ _); eauto. }
  destruct (_is_quoted_string s) eqn:H3.
  { left. unfold parse_value. rewrite H1, H2, H3. eauto. }
  destruct (re_match INT_PATTERN s) eqn:H4.
  { destruct (parse_value_int s H1 H2 H3 H4) as (? & ? & ? & _ & _ & _ & E).
    rewrite E. destruct (4300 <? _); eauto 6. }
  destruct (re_match FLOAT_PATTERN s) eqn:H5.
  { left. destruct (parse_value_float s H1 H2 H3 H4 H5) as (? & ? & ? & ? & _ & _ & E). eauto. }
  left. unfold parse_value. rewrite H1, H2, H3, H4, H5. eauto.
Qed.

(** C7.  The patterns are tried in the order date, time, quoted text, integer,
    float, and the first that matches decides; the digits are those of every
    script.  A token that matches the date pattern is the date its digits
    write when that is a calendar date, and the date error otherwise; it is
    never a float, and an impossible month or day is neither clamped nor read
    by a later pattern.  A token that matches the time pattern is the time its
    digits write when the hour is in 0..23 and the minute in 0..59, and the
    time error otherwise.  A token of the int pattern is an int, unless it has
    more than 4300 digits, which the conversion refuses: the error is then the
    one of a value that cannot be parsed.  A token of the float pattern is a
    float.  A token no pattern matches is returned as it is, as text.  On
    every token the function ends with a value or with one of these three
    errors. *)
Theorem value_inference_is_ordered (s : str) :
  (re_match DATE_PATTERN s = true ->
   exists c1 c2 c3 c4 c5 c6 c7 c8 nl,
     s = [c1; c2; c3; c4; DOT; c5; c6; DOT; c7; c8] ++ nl /\
     Forall (fun c => is_digit c = true) [c1; c2; c3; c4; c5; c6; c7; c8] /\
     (nl = [] \/ nl = [NEWLINE]) /\
     let y := number [c1; c2; c3; c4] in
     let m := number [c5; c6] in
     let d := number [c7; c8] in
     parse_value s =
       if valid_date y m d then Ok (VDate y m d) else Err (ParseError (BadDate s))) /\
  (re_match TIME_PATTERN s = true ->
   exists c1 c2 c3 c4 nl,
     s = [c1; c2; COLON; c3; c4] ++ nl /\
     Forall (fun c => is_digit c = true) [c1; c2; c3; c4] /\
     (nl = [] \/ nl = [NEWLINE]) /\
     let h := number [c1; c2] in
     let m := number [c3; c4] in
     parse_value s =
       if valid_time h m then Ok (VTime h m) else Err (ParseError (BadTime s))) /\
  (re_match DATE_PATTERN s = false -> re_match TIME_PATTERN s = false ->
   (_is_quoted_string s = true -> parse_value s = Ok (VStr (_parse_quoted_string s))) /\
   (_is_quoted_string s = false -> re_match INT_PATTERN s = true ->
    if 4300 <? count_digits s then parse_value s = Err (ParseError (BadValue s))
    else exists i, parse_value s = Ok (VInt i)) /\
   (_is_quoted_string s = false -> re_match INT_PATTERN s = false ->
    re_match FLOAT_PATTERN s = true -> exists f, parse_value s = Ok (VFloat f)) /\
   (_is_quoted_string s = false -> re_match INT_PATTERN s = false ->
    re_match FLOAT_PATTERN s = false -> parse_value s = Ok (VStr s))) /\
  ((exists v, parse_value s = Ok v) \/
   parse_value s = Err (ParseError (BadDate s)) \/
   parse_value s = Err (ParseError (BadTime s)) \/
   parse_value s = Err (ParseError (BadValue s))).
Proof.
  split; [apply parse_value_date|]. split; [apply parse_value_time|].
  split; [|apply parse_value_result].
  intros H1 H2. split; [|split; [|split]].
  - intros H3. unfold parse_value. rewrite H1, H2, H3. reflexivity.
  - intros H3 H4.
    destruct (parse_value_int s H1 H2 H3 H4) as (? & ? & ? & _ & _ & _ & E).
    rewrite E. destruct (4300 <? _); eauto.
  - intros H3 H4 H5.
    destruct (parse_value_float s H1 H2 H3 H4 H5) as (? & ? & ? & ? & _ & _ & E). eauto.
  - intros H3 H4 H5. unfold parse_value. rewrite H1, H2, H3, H4, H5. reflexivity.
Qed.

(** The date of the third scenario and a token that no pattern matches,
    through the theorem. *)
Lemma value_inference_is_ordered_witness :
  parse_value (py "2025.12.15") = Ok (VDate 2025 12 15) /\
  parse_value (py "2025-12-15") = Ok (VStr (py "2025-12-15")).
Proof.
  split.
  - destruct (proj1 (value_inference_is_ordered (py "2025.12.15")))
      as (c1 & c2 & c3 & c4 & c5 & c6 & c7 & c8 & nl & Hs & _ & _ & E);
      [vm_compute; reflexivity|].
    rewrite E. vm_compute in Hs.
    injection Hs as <- <- <- <- <- <- <- <- <-. vm_compute. reflexivity.
  - destruct (value_inference_is_ordered (py "2025-12-15")) as (_ & _ & H & _).
    destruct H as (_ & _ & _ & H); [vm_compute; reflexivity..|].
    apply H; vm_compute; reflexivity.
Defined.

Example impossible_month_and_day_are_errors :
  parse_value (py "2025.13.45") = Err (ParseError (BadDate (py "2025.13.45"))) /\
  parse_value (py "2025.02.30") = Err (ParseError (BadDate (py "2025.02.30"))) /\
  parse_value (py "2024.02.29") = Ok (VDate 2024 2 29) /\
  parse_value (py "25:61") = Err (ParseError (BadTime (py "25:61"))) /\
  parse_value (py "23:59") = Ok (VTime 23 59).
Proof. repeat split; vm_compute; reflexivity. Qed.

Example inference_examples :
  parse_value (quoted (py "пример строки")) = Ok (VStr (py "пример строки")) /\
  parse_value (py "42") = Ok (VInt 42) /\
  parse_value (py "-10") = Ok (VInt (-10)) /\
  parse_value (py "-2.5") = Ok (VFloat (float_of_decimal true 25 1)) /\
  parse_value (py "2025-12-15") = Ok (VStr (py "2025-12-15")).
Proof. repeat split; vm_compute; reflexivity. Qed.

(** The digits of another script are read as the ASCII ones are: a date, an
    impossible date, a time out of range, an int and a float in Arabic-Indic
    digits. *)
Example digits_of_another_script :
  parse_value (py "٢٠٢٥.١٢.١٥") = Ok (VDate 2025 12 15) /\
  parse_value (py "٢٠٢٥.١٣.٤٥") = Err (ParseError (BadDate (py "٢٠٢٥.١٣.٤٥"))) /\
  parse_value (py "٢٥:٩٩") = Err (ParseError (BadTime (py "٢٥:٩٩"))) /\
  parse_value (py "٤") = Ok (VInt 4) /\
  parse_value (py "٣.٥") = Ok (VFloat (float_of_decimal false 35 1)).
Proof. repeat split; vm_compute; reflexivity. Qed.

(** An int literal of 4300 digits is read; one of 4301 digits is refused,
    with the error of a value that cannot be parsed. *)
Example int_of_too_many_digits :
  (exists i, parse_value (replicate 4300 49%N) = Ok (VInt i)) /\
  parse_value (replicate 4301 49%N)
    = Err (ParseError (BadValue (replicate 4301 49%N))).
Proof. split; [eexists|]; vm_compute; reflexivity. Qed.

(** ** Key translation *)

Lemma dict_of_items_snoc {V} (items : list (str * V)) k v :
  dict_of_items (items ++ [(k, v)]) = <[k := v]> (dict_of_items items).
Proof. unfold dict_of_items. rewrite foldl_app. reflexivity. Qed.

Lemma dict_of_items_lookup_None {V} (items : list (str * V)) k :
  dict_of_items items !! k = None <-> forall v, (k, v) ∉ items.
Proof.
  induction items as [|[k' v'] items IH] using rev_ind.
  - split; [intros _ v H; inversion H|reflexivity].
  - rewrite dict_of_items_snoc, lookup_insert. case_decide as Hk.
    + subst. split; [discriminate|]. intros H. destruct (H v').
      apply elem_of_app. right. apply elem_of_cons. auto.
    + rewrite IH. split.
      * intros H v Hin. apply elem_of_app in Hin as [Hin|Hin]; [apply (H v Hin)|].
        apply elem_of_cons in Hin as [[= -> _]|Hin]; [congruence|inversion Hin].
      * intros H v Hin. apply (H v). apply elem_of_app. auto.
Qed.

(** No alias of the table is given two canonical keys: the one alias written
    twice, 'вес', has 'weight' both times. *)
Lemma aliases_agree alias canonical :
  (alias, canonical) ∈ RUSSIAN_TO_ENGLISH_ITEMS ->
  RUSSIAN_TO_ENGLISH_MAP !! alias = Some canonical.
Proof.
  assert (H : forallb (fun kv => bool_decide (RUSSIAN_TO_ENGLISH_MAP !! kv.1 = Some kv.2))
                RUSSIAN_TO_ENGLISH_ITEMS = true) by (vm_compute; reflexivity).
  rewrite forallb_forall in H. intros Hin. apply list_elem_of_In in Hin.
  apply H in Hin. apply bool_decide_eq_true in Hin. exact Hin.
Qed.

(** C3, as the code has it.  The key is lower-cased and its spaces replaced
    by underscores for the lookup only: an alias of the table is answered
    with its canonical key, whatever the case it is written in, and a key the
    table does not have is returned exactly as it was written, not in its
    normalized form. *)
Theorem translate_key_returns_raw_key_on_miss (key : str) :
  (forall alias canonical,
     (alias, canonical) ∈ RUSSIAN_TO_ENGLISH_ITEMS -> normalize_key key = alias ->
     _translate_key key = canonical) /\
  ((forall canonical, (normalize_key key, canonical) ∉ RUSSIAN_TO_ENGLISH_ITEMS) ->
   _translate_key key = key).
Proof.
  unfold _translate_key. split.
  - intros alias canonical Hin <-. rewrite (aliases_agree _ _ Hin). reflexivity.
  - intros Hmiss. apply dict_of_items_lookup_None in Hmiss.
    fold RUSSIAN_TO_ENGLISH_MAP in Hmiss. rewrite Hmiss. reflexivity.
Qed.

(** 'Вес' with a capital letter is found under 'вес'; 'Weight' is not an
    alias and keeps its capital letter. *)
Lemma translate_key_returns_raw_key_on_miss_witness :
  _translate_key (py "Вес") = py "weight" /\ _translate_key (py "Weight") = py "Weight".
Proof.
  split.
  - apply (proj1 (translate_key_returns_raw_key_on_miss (py "Вес")) (py "вес") (py "weight")).
    + apply (bool_decide_unpack _). vm_compute. exact I.
    + vm_compute. reflexivity.
  - apply (proj2 (translate_key_returns_raw_key_on_miss (py "Weight"))).
    intros canonical. apply (dict_of_items_lookup_None RUSSIAN_TO_ENGLISH_ITEMS).
    vm_compute. reflexivity.
Defined.

(** C3 as the specification words it fails: the lookup of 'Weight' misses,
    its normalized form is 'weight', and the key returned is 'Weight'. *)
Lemma translate_key_keeps_spelling_of_unknown_key :
  RUSSIAN_TO_ENGLISH_MAP !! normalize_key (py "Weight") = None /\
  normalize_key (py "Weight") = py "weight" /\
  _translate_key (py "Weight") = py "Weight" /\
  _translate_key (py "Weight") <> normalize_key (py "Weight").
Proof.
  split; [vm_compute; reflexivity|]. split; [vm_compute; reflexivity|].
  split; [vm_compute; reflexivity|]. vm_compute. discriminate.
Qed.

(** ** Required properties *)

Lemma scan_required_spec properties required ms tes :
  scan_required properties required ms tes =
    (ms ++ spec_missing properties required, tes ++ spec_type_mismatches properties required).
Proof.
  revert ms tes. induction required as [|[k t] required IH]; intros ms tes; simpl.
  - rewrite !app_nil_r. reflexivity.
  - unfold isinstance. destruct (properties !! k) as [v|]; simpl.
    + destruct (bool_decide (type_of v = t)); simpl; rewrite IH.
      * reflexivity.
      * rewrite <- app_assoc. reflexivity.
    + rewrite IH, <- app_assoc. reflexivity.
Qed.

Lemma validate_required_properties_spec object_type properties required :
  validate_required_properties object_type properties required =
    match spec_missing properties required, spec_type_mismatches properties required with
    | [], [] => Ok tt
    | missing, type_errors =>
        Err (ParseError (RequiredProperties object_type missing type_errors))
    end.
Proof.
  unfold validate_required_properties. rewrite scan_required_spec. simpl.
  destruct (spec_missing _ _), (spec_type_mismatches _ _); reflexivity.
Qed.

Lemma spec_missing_elem properties required k :
  k ∈ spec_missing properties required <->
  (exists t, (k, t) ∈ required) /\ properties !! k = None.
Proof.
  unfold spec_missing. rewrite list_elem_of_omap. split.
  - intros ([k' t] & Hin & H). destruct (properties !! k') eqn:E; [discriminate|].
    injection H as ->. eauto.
  - intros [[t Hin] Hk]. exists (k, t). rewrite Hk. auto.
Qed.

Lemma spec_type_mismatches_elem properties required k t a :
  (k, t, a) ∈ spec_type_mismatches properties required <->
  (k, t) ∈ required /\ exists v, properties !! k = Some v /\ type_of v = a /\ a <> t.
Proof.
  unfold spec_type_mismatches. rewrite list_elem_of_omap. split.
  - intros ([k' t'] & Hin & H). destruct (properties !! k') as [v|] eqn:E; [|discriminate].
    case_bool_decide; [discriminate|]. injection H as -> -> <-. eauto.
  - intros (Hin & v & Hv & <- & Hne). exists (k, t). rewrite Hv.
    rewrite bool_decide_eq_false_2 by exact Hne. auto.
Qed.

Lemma validate_ok_inv object_type properties required :
  validate_required_properties object_type properties required = Ok tt ->
  forall k t, (k, t) ∈ required -> exists v, properties !! k = Some v /\ type_of v = t.
Proof.
  rewrite validate_required_properties_spec. intros H k t Hin.
  destruct (spec_missing properties required) as [|m ms] eqn:Em;
    [|destruct (spec_type_mismatches properties required); discriminate].
  destruct (spec_type_mismatches properties required) as [|x xs] eqn:Et; [|discriminate].
  destruct (properties !! k) as [v|] eqn:Ek.
  - exists v. split; [reflexivity|]. destruct (decide (type_of v = t)) as [|Hne]; [assumption|].
    assert (Hx : (k, t, type_of v) ∈ spec_type_mismatches properties required)
      by (apply spec_type_mismatches_elem; eauto 6).
    rewrite Et in Hx. inversion Hx.
  - assert (Hx : k ∈ spec_missing properties required) by (apply spec_missing_elem; eauto).
    rewrite Em in Hx. inversion Hx.
Qed.

Lemma validate_errors object_type properties required e :
  validate_required_properties object_type properties required = Err e ->
  exists m te, e = ParseError (RequiredProperties object_type m te).
Proof.
  rewrite validate_required_properties_spec.
  destruct (spec_missing _ _), (spec_type_mismatches _ _); intros [= <-]; eauto.
Qed.

Lemma occurs_in_refl x : occurs_in x x.
Proof. exists [], []. rewrite app_nil_r. reflexivity. Qed.

Lemma occurs_in_app_l x s t : occurs_in x s -> occurs_in x (s ++ t).
Proof. intros (a & b & ->). exists a, (b ++ t). rewrite <- !app_assoc. reflexivity. Qed.

Lemma occurs_in_app_r x s t : occurs_in x t -> occurs_in x (s ++ t).
Proof. intros (a & b & ->). exists (s ++ a), b. rewrite <- !app_assoc. reflexivity. Qed.

Lemma occurs_in_trans x y z : occurs_in x y -> occurs_in y z -> occurs_in x z.
Proof.
  intros (a & b & ->) (c & d & ->). exists (c ++ a), (b ++ d).
  rewrite <- !app_assoc. reflexivity.
Qed.

Lemma join_occurs sep parts x : x ∈ parts -> occurs_in x (join sep parts).
Proof.
  induction parts as [|p parts IH]; intros Hin; [inversion Hin|].
  apply elem_of_cons in Hin as [-> | Hin].
  - destruct parts; simpl; [apply occurs_in_refl|apply occurs_in_app_l, occurs_in_refl].
  - destruct parts as [|p' parts]; [inversion Hin|].
    change (join sep (p :: p' :: parts)) with (p ++ sep ++ join sep (p' :: parts)).
    apply occurs_in_app_r, occurs_in_app_r, IH, Hin.
Qed.

Lemma message_names_missing object_type missing type_errors k :
  k ∈ missing -> occurs_in k (required_properties_message object_type missing type_errors).
Proof.
  intros Hk. unfold required_properties_message.
  apply occurs_in_app_r, occurs_in_app_r, occurs_in_app_r.
  destruct missing as [|m ms]; [inversion Hk|].
  eapply occurs_in_trans; [|apply join_occurs, elem_of_app; left; apply elem_of_cons; left;
                             reflexivity].
  apply occurs_in_app_r, join_occurs, Hk.
Qed.

Lemma message_names_type_error object_type missing type_errors te :
  te ∈ type_errors ->
  occurs_in (render_type_error te)
    (required_properties_message object_type missing type_errors).
Proof.
  intros Hk. unfold required_properties_message.
  apply occurs_in_app_r, occurs_in_app_r, occurs_in_app_r.
  destruct type_errors as [|t ts]; [inversion Hk|].
  eapply occurs_in_trans; [|apply join_occurs, elem_of_app; right; apply elem_of_cons; left;
                             reflexivity].
  apply occurs_in_app_r, join_occurs, list_elem_of_fmap_2, Hk.
Qed.

(** C8.  Validation against a schema entry succeeds exactly when every
    required key is present with a value of the expected type.  Otherwise it
    raises one error, after the scan of all the required pairs: its missing
    list holds every required key that is absent, its mismatch list every
    required key whose value has another type, with the expected and the
    actual type, and the message names each of them. *)
Theorem required_properties_are_reported_together (object_type : str)
    (properties : gmap str value) (required : list (str * type_name)) :
  (validate_required_properties object_type properties required = Ok tt <->
   forall k t, (k, t) ∈ required -> exists v, properties !! k = Some v /\ type_of v = t) /\
  (forall e, validate_required_properties object_type properties required = Err e ->
   exists missing type_errors,
     e = ParseError (RequiredProperties object_type missing type_errors) /\
     (forall k, k ∈ missing <-> (exists t, (k, t) ∈ required) /\ properties !! k = None) /\
     (forall k t a, (k, t, a) ∈ type_errors <->
        (k, t) ∈ required /\ exists v, properties !! k = Some v /\ type_of v = a /\ a <> t) /\
     (forall k, k ∈ missing ->
        occurs_in k (required_properties_message object_type missing type_errors)) /\
     (forall te, te ∈ type_errors ->
        occurs_in (render_type_error te)
          (required_properties_message object_type missing type_errors))).
Proof.
  split.
  - split; [apply validate_ok_inv|]. intros Hall.
    rewrite validate_required_properties_spec.
    destruct (spec_missing properties required) as [|m ms] eqn:Em.
    + destruct (spec_type_mismatches properties required) as [|[[k t] a] xs] eqn:Et;
        [reflexivity|].
      assert (Hx : (k, t, a) ∈ spec_type_mismatches properties required)
        by (rewrite Et; apply elem_of_cons; auto).
      apply spec_type_mismatches_elem in Hx as (Hin & v & Hv & Ha & Hne).
      destruct (Hall k t Hin) as (v' & Hv' & Ht). congruence.
    + assert (Hx : m ∈ spec_missing properties required)
        by (rewrite Em; apply elem_of_cons; auto).
      apply spec_missing_elem in Hx as [[t Hin] Hnone].
      destruct (Hall m t Hin) as (v' & Hv' & _). congruence.
  - intros e. rewrite validate_required_properties_spec. intros H.
    exists (spec_missing properties required), (spec_type_mismatches properties required).
    split.
    { destruct (spec_missing _ _), (spec_type_mismatches _ _); congruence. }
    split; [apply spec_missing_elem|]. split; [apply spec_type_mismatches_elem|].
    split; [apply message_names_missing|apply message_names_type_error].
Qed.

(** The line [UserProfile age 1.5 weight 3]: four keys are missing and two
    have the wrong type, and the one error names them all. *)
Lemma required_properties_are_reported_together_witness :
  exists missing type_errors,
    validate_required_properties (py "UserProfile") mistyped_properties user_profile_required
      = Err (ParseError (RequiredProperties (py "UserProfile") missing type_errors)) /\
    py "gender" ∈ missing /\ py "activity_type" ∈ missing /\
    (py "age", TInt, TFloat) ∈ type_errors /\ (py "weight", TFloat, TInt) ∈ type_errors.
Proof.
  assert (H : validate_required_properties (py "UserProfile") mistyped_properties
                user_profile_required
              = Err (ParseError (RequiredProperties (py "UserProfile")
                  [py "gender"; py "height"; py "goal"; py "activity_type"]
                  [(py "age", TInt, TFloat); (py "weight", TFloat, TInt)])))
    by (vm_compute; reflexivity).
  destruct (proj2 (required_properties_are_reported_together (py "UserProfile")
                     mistyped_properties user_profile_required) _ H)
    as (missing & type_errors & He & Hm & Ht & _).
  exists missing, type_errors.
  split; [rewrite H; f_equal; exact He|].
  assert (Hreq : forall kt, bool_decide (kt ∈ user_profile_required) = true ->
                   kt ∈ user_profile_required)
    by (intros kt; apply bool_decide_eq_true_1).
  split; [|split; [|split]].
  - apply Hm. split; [exists TStr; apply Hreq|]; vm_compute; reflexivity.
  - apply Hm. split; [exists TStr; apply Hreq|]; vm_compute; reflexivity.
  - apply Ht. split; [apply Hreq; vm_compute; reflexivity|].
    exists (VFloat (float_of_decimal false 15 1)).
    split; [vm_compute; reflexivity|]. split; [reflexivity|discriminate].
  - apply Ht. split; [apply Hreq; vm_compute; reflexivity|].
    exists (VInt 3).
    split; [vm_compute; reflexivity|]. split; [reflexivity|discriminate].
Defined.

(** ** The descriptor assembler *)

Lemma index_lt {A} (l : list A) i :
  (i < length l)%nat -> exists x, l !! i = Some x /\ index l i = Ok x.
Proof.
  intros H. destruct (lookup_lt_is_Some_2 l i H) as [x Hx].
  exists x. unfold index. rewrite Hx. auto.
Qed.

Lemma div2_bounds n : (2 * (n / 2) <= n < 2 * (n / 2) + 2)%nat.
Proof.
  pose proof (Nat.div_mod_eq n 2). pose proof (Nat.mod_upper_bound n 2 ltac:(lia)). lia.
Qed.

Lemma odd_length n : Nat.even n = false -> exists h, n = (2 * h + 1)%nat.
Proof.
  intros Hodd. assert (Ho : Nat.odd n = true) by (rewrite <- Nat.negb_even, Hodd; reflexivity).
  apply Nat.odd_spec in Ho. exact Ho.
Qed.

(** Past the two checks on the number of tokens, every key index of the loop
    has a value index after it. *)
Lemma py_range_pairs n :
  (3 <= n)%nat -> Nat.even n = false ->
  Forall (fun i => (i + 1 < n)%nat) (py_range 1 n 2).
Proof.
  intros Hn Hodd. unfold py_range. apply Forall_forall. intros i Hi.
  apply list_elem_of_In, in_map_iff in Hi as (k & <- & Hk). apply in_seq in Hk.
  replace (n - 1 + (2 - 1))%nat with n in Hk by lia.
  destruct (odd_length n Hodd) as [h ->]. pose proof (div2_bounds (2 * h + 1)). lia.
Qed.

(** The key indices before and after an odd index. *)
Lemma py_range_split n j :
  Nat.Odd j -> (j < n)%nat ->
  exists rest, py_range 1 n 2 = py_range 1 j 2 ++ j :: rest.
Proof.
  intros [b ->] Hj. unfold py_range.
  replace (n - 1 + (2 - 1))%nat with n by lia.
  replace (2 * b + 1 - 1 + (2 - 1))%nat with (2 * b + 1)%nat by lia.
  replace ((2 * b + 1) / 2)%nat with b by (pose proof (div2_bounds (2 * b + 1)); lia).
  assert (Hb : (b < n / 2)%nat) by (pose proof (div2_bounds n); lia).
  replace (n / 2)%nat with (b + S (n / 2 - b - 1))%nat by lia.
  rewrite seq_app, map_app. cbn [seq map Nat.add].
  eexists. f_equal. f_equal. lia.
Qed.

Lemma py_range_elem_of i n : Nat.Odd i -> (i < n)%nat -> i ∈ py_range 1 n 2.
Proof.
  intros Hi Hn. destruct (py_range_split n i Hi Hn) as [rest ->].
  apply elem_of_app. right. apply elem_of_cons. auto.
Qed.

Lemma assemble_errors tokens indices properties e :
  Forall (fun i => (i + 1 < length tokens)%nat) indices ->
  assemble tokens indices properties = Err e ->
  (exists raw key, e = ParseError (DuplicateProperty raw key)) \/
  (exists s, e = ParseError (BadDate s)) \/ (exists s, e = ParseError (BadTime s)) \/
  (exists s, e = ParseError (BadValue s)).
Proof.
  intros Hidx. revert properties.
  induction Hidx as [|i rest Hi _ IH]; intros properties; cbn [assemble]; [discriminate|].
  destruct (Nat.leb_spec (length tokens) (i + 1)) as [Hle|_]; [lia|].
  destruct (index_lt tokens i ltac:(lia)) as (raw & _ & ->).
  destruct (index_lt tokens (i + 1) Hi) as (value_str & _ & ->).
  rewrite !bind_ok.
  destruct (member (_translate_key raw) properties).
  - intros [= <-]. left. eauto.
  - destruct (parse_value_result value_str) as [[v ->] | [-> | [-> | ->]]].
    + rewrite bind_ok. apply IH.
    + intros [= <-]. right. left. eauto.
    + intros [= <-]. right. right. left. eauto.
    + intros [= <-]. right. right. right. eauto.
Qed.

Lemma assemble_app tokens l1 l2 properties :
  assemble tokens (l1 ++ l2) properties
    = (assemble tokens l1 properties ≫= assemble tokens l2).
Proof.
  revert properties. induction l1 as [|i l1 IH]; intros properties; [reflexivity|].
  cbn [app assemble]. destruct (length tokens <=? i + 1)%nat.
  { destruct (index tokens i); reflexivity. }
  destruct (index tokens i) as [raw|]; [|reflexivity]. rewrite !bind_ok.
  destruct (index tokens (i + 1)) as [value_str|]; [|reflexivity]. rewrite !bind_ok.
  destruct (member _ _); [reflexivity|].
  destruct (parse_value value_str); [|reflexivity]. rewrite !bind_ok. apply IH.
Qed.

(** One round of the loop, at an index that has a value after it. *)
Lemma assemble_step tokens i rest properties raw value_str :
  tokens !! i = Some raw -> tokens !! (i + 1)%nat = Some value_str ->
  assemble tokens (i :: rest) properties =
    if member (_translate_key raw) properties
    then Err (ParseError (DuplicateProperty raw (_translate_key raw)))
    else v ← parse_value value_str;
         assemble tokens rest (<[_translate_key raw := v]> properties).
Proof.
  intros Hi Hv. cbn [assemble].
  destruct (Nat.leb_spec (length tokens) (i + 1)) as [Hle|_].
  { apply lookup_lt_Some in Hv. lia. }
  unfold index. rewrite Hi, Hv. reflexivity.
Qed.

Lemma member_spec {V} (k : str) (d : gmap str V) : member k d = true <-> is_Some (d !! k).
Proof. unfold member. apply bool_decide_eq_true. Qed.

(** Keys only accumulate. *)
Lemma assemble_keeps_keys tokens indices properties properties' (key : str) :
  assemble tokens indices properties = Ok properties' ->
  is_Some (properties !! key) -> is_Some (properties' !! key).
Proof.
  revert properties. induction indices as [|i rest IH]; intros properties; cbn [assemble].
  - intros [= <-]. auto.
  - destruct (length tokens <=? i + 1)%nat.
    { destruct (index tokens i); discriminate. }
    destruct (index tokens i) as [raw|]; [|discriminate]. rewrite bind_ok.
    destruct (index tokens (i + 1)) as [value_str|]; [|discriminate]. rewrite bind_ok.
    destruct (member _ _); [discriminate|].
    destruct (parse_value value_str) as [v|]; [|discriminate]. rewrite bind_ok.
    intros H Hk. apply (IH _ H). rewrite lookup_insert_is_Some.
    destruct (decide (_translate_key raw = key)); auto.
Qed.

(** Every key the loop went through is in the mapping, under its canonical
    name. *)
Lemma assemble_has_keys tokens indices properties properties' i raw :
  assemble tokens indices properties = Ok properties' ->
  i ∈ indices -> tokens !! i = Some raw ->
  is_Some (properties' !! _translate_key raw).
Proof.
  revert properties. induction indices as [|j rest IH]; intros properties H Hin Hraw.
  - inversion Hin.
  - cbn [assemble] in H. destruct (length tokens <=? j + 1)%nat.
    { destruct (index tokens j); discriminate. }
    destruct (index tokens j) as [raw'|] eqn:Ej; [|discriminate]. rewrite bind_ok in H.
    destruct (index tokens (j + 1)) as [value_str|]; [|discriminate]. rewrite bind_ok in H.
    destruct (member _ _); [discriminate|].
    destruct (parse_value value_str) as [v|]; [|discriminate]. rewrite bind_ok in H.
    apply elem_of_cons in Hin as [-> | Hin].
    + unfold index in Ej. rewrite Hraw in Ej. injection Ej as <-.
      apply (assemble_keeps_keys _ _ _ _ _ H). rewrite lookup_insert_eq. eauto.
    + apply (IH _ H Hin Hraw).
Qed.

(** ** [parse_object] *)

Lemma tokenize_errors object_str e :
  _tokenize_string object_str = Err e ->
  e = ParseError EmptyString \/ e = ParseError UnclosedQuotes.
Proof.
  unfold _tokenize_string. destruct (strip object_str); [intros [= <-]; auto|].
  destruct (tokenize_loop _ _ _ _) as [[tokens cur] [|]]; [intros [= <-]; auto|].
  destruct cur; discriminate.
Qed.

(** The two checks on the number of tokens come before the loop. *)
Lemma parse_object_count_checks object_str tokens :
  _tokenize_string object_str = Ok tokens ->
  (length tokens < 3)%nat \/ Nat.even (length tokens) = true ->
  parse_object object_str
    = Err (ParseError (if (length tokens <? 3)%nat then NotEnoughData else EvenTokenCount)).
Proof.
  intros Htok Hcount.
  unfold parse_object, parse_object_body. rewrite Htok, bind_ok.
  destruct (Nat.ltb_spec (length tokens) 3) as [|Hge]; [reflexivity|].
  destruct Hcount as [Hlt | ->]; [lia|reflexivity].
Qed.

(** The steps of [parse_object] past the checks. *)
Lemma parse_object_tokens object_str tokens :
  _tokenize_string object_str = Ok tokens ->
  (3 <= length tokens)%nat -> Nat.even (length tokens) = false ->
  exists object_type, tokens !! 0%nat = Some object_type /\
  parse_object object_str =
    match assemble tokens (py_range 1 (length tokens) 2) ∅ with
    | Err e => Err e
    | Ok properties =>
        match assoc object_type required_properties with
        | Some required =>
            match validate_required_properties object_type properties required with
            | Ok _ => Ok (Descriptor object_type properties)
            | Err e => Err e
            end
        | None => Ok (Descriptor object_type properties)
        end
    end.
Proof.
  intros Htok H3 Hodd.
  destruct (index_lt tokens 0 ltac:(lia)) as (object_type & H0 & Hi).
  exists object_type. split; [exact H0|].
  unfold parse_object, parse_object_body. rewrite Htok, bind_ok.
  destruct (Nat.ltb_spec (length tokens) 3) as [|_]; [lia|]. rewrite Hodd, Hi, bind_ok.
  destruct (assemble tokens _ ∅) as [properties|e] eqn:Ea.
  - rewrite bind_ok. destruct (assoc object_type required_properties) as [required|].
    + destruct (validate_required_properties _ _ _) as [[]|e] eqn:Ev; [reflexivity|].
      apply validate_errors in Ev as (m & te & ->). reflexivity.
    + reflexivity.
  - rewrite bind_err.
    apply assemble_errors in Ea as [(raw & key & ->) | [[s ->] | [[s ->] | [s ->]]]];
      [reflexivity..|]. apply py_range_pairs; assumption.
Qed.

Lemma parse_object_errors object_str e :
  parse_object object_str = Err e -> descriptor_error e.
Proof.
  destruct (_tokenize_string object_str) as [tokens|e0] eqn:Htok.
  2:{ unfold parse_object, parse_object_body. rewrite Htok, bind_err.
      apply tokenize_errors in Htok as [-> | ->]; intros [= <-]; constructor. }
  destruct (Nat.ltb_spec (length tokens) 3) as [Hlt|Hge].
  { rewrite (parse_object_count_checks _ _ Htok (or_introl Hlt)).
    destruct (length tokens <? 3)%nat; intros [= <-]; constructor. }
  destruct (Nat.even (length tokens)) eqn:Hev.
  { rewrite (parse_object_count_checks _ _ Htok (or_intror Hev)).
    destruct (length tokens <? 3)%nat; intros [= <-]; constructor. }
  destruct (parse_object_tokens _ _ Htok Hge Hev) as (object_type & _ & ->).
  destruct (assemble tokens _ ∅) as [properties|e1] eqn:Ea.
  - destruct (assoc object_type required_properties) as [required|]; [|discriminate].
    destruct (validate_required_properties _ _ _) as [[]|e1] eqn:Ev; [discriminate|].
    apply validate_errors in Ev as (m & te & ->). intros [= <-]. constructor.
  - intros [= <-].
    apply assemble_errors in Ea as [(raw & key & ->) | [[s ->] | [[s ->] | [s ->]]]];
      [constructor..|]. apply py_range_pairs; assumption.
Qed.

Lemma parse_object_ok_inv object_str d :
  parse_object object_str = Ok d ->
  exists tokens,
    _tokenize_string object_str = Ok tokens /\
    (3 <= length tokens)%nat /\ Nat.even (length tokens) = false /\
    tokens !! 0%nat = Some (type d) /\
    assemble tokens (py_range 1 (length tokens) 2) ∅ = Ok (properties d) /\
    forall required, assoc (type d) required_properties = Some required ->
      validate_required_properties (type d) (properties d) required = Ok tt.
Proof.
  intros H.
  destruct (_tokenize_string object_str) as [tokens|e0] eqn:Htok.
  2:{ unfold parse_object, parse_object_body in H. rewrite Htok, bind_err in H.
      destruct e0; discriminate. }
  destruct (Nat.ltb_spec (length tokens) 3) as [Hlt|Hge].
  { rewrite (parse_object_count_checks _ _ Htok (or_introl Hlt)) in H. discriminate. }
  destruct (Nat.even (length tokens)) eqn:Hev.
  { rewrite (parse_object_count_checks _ _ Htok (or_intror Hev)) in H. discriminate. }
  destruct (parse_object_tokens _ _ Htok Hge Hev) as (object_type & H0 & E).
  rewrite E in H. exists tokens.
  destruct (assemble tokens _ ∅) as [props|e1]; [|discriminate].
  destruct (assoc object_type required_properties) as [required|] eqn:Ereq.
  - destruct (validate_required_properties _ _ _) as [[]|e1] eqn:Ev; [|discriminate].
    injection H as <-. cbn [type properties]. rewrite Ereq. repeat split; auto.
    intros ? [= <-]. exact Ev.
  - injection H as <-. cbn [type properties]. rewrite Ereq. repeat split; auto.
    discriminate.
Qed.

(** An error of [parse_object] is the error of [create_object_from_string]. *)
Lemma create_object_from_string_parse_error today object_str e :
  parse_object object_str = Err (ParseError e) ->
  create_object_from_string today object_str = Err (ParseError e).
Proof. intros H. unfold create_object_from_string. rewrite H. reflexivity. Qed.

(** C6.  A line that tokenizes to fewer than three tokens, or to an even
    number of tokens, is refused by [parse_object] and by
    [create_object_from_string] with a [ParseError], whatever the tokens are:
    the error is that of the count check the line fails, which comes before
    any key or value is looked at. *)
Theorem token_count_is_checked_first (object_str : str) (tokens : list str) :
  _tokenize_string object_str = Ok tokens ->
  (length tokens < 3)%nat \/ Nat.Even (length tokens) ->
  parse_object object_str
    = Err (ParseError (if (length tokens <? 3)%nat then NotEnoughData else EvenTokenCount)) /\
  forall today,
    create_object_from_string today object_str
      = Err (ParseError (if (length tokens <? 3)%nat then NotEnoughData else EvenTokenCount)).
Proof.
  intros Htok Hcount.
  assert (Hp : parse_object object_str
    = Err (ParseError (if (length tokens <? 3)%nat then NotEnoughData else EvenTokenCount))).
  { apply parse_object_count_checks; [exact Htok|].
    destruct Hcount as [Hlt | Hev]; [left; exact Hlt|right; apply Nat.even_spec, Hev]. }
  split; [exact Hp|].
  intros today. apply create_object_from_string_parse_error, Hp.
Qed.

(** The fourth scenario, [UserProfile gender], and a line of four tokens whose
    value is not even a valid time. *)
Lemma token_count_is_checked_first_witness :
  parse_object (py "UserProfile gender") = Err (ParseError NotEnoughData) /\
  parse_object (py "Workout date 25:99 duration") = Err (ParseError EvenTokenCount).
Proof.
  split.
  - apply (token_count_is_checked_first (py "UserProfile gender")
             [py "UserProfile"; py "gender"]); [vm_compute; reflexivity|].
    left. simpl. lia.
  - apply (token_count_is_checked_first (py "Workout date 25:99 duration")
             [py "Workout"; py "date"; py "25:99"; py "duration"]); [vm_compute; reflexivity|].
    right. exists 2%nat. reflexivity.
Defined.

(** C5, as the code has it.  When two key tokens of a line have the same
    canonical key, whether they are written alike or are two aliases of it,
    [parse_object] ends with a [ParseError], and so does
    [create_object_from_string].  The check is on the translated keys: when
    the count of tokens is odd and the pairs before the second of the two keys
    assemble, the error is the duplicate-property error, for that key as
    written and as translated.  (The loop stops at its first error, so an even
    count or a value before the second key that cannot be inferred is
    reported instead.) *)
Theorem duplicate_canonical_key_is_refused (object_str : str) (tokens : list str)
    (i j : nat) (raw_i raw_j : str) :
  _tokenize_string object_str = Ok tokens ->
  Nat.Odd i -> Nat.Odd j -> (i < j)%nat ->
  tokens !! i = Some raw_i -> tokens !! j = Some raw_j ->
  _translate_key raw_i = _translate_key raw_j ->
  (exists e, parse_object object_str = Err (ParseError e) /\
             forall today, create_object_from_string today object_str = Err (ParseError e)) /\
  (forall properties,
     Nat.even (length tokens) = false ->
     assemble tokens (py_range 1 j 2) ∅ = Ok properties ->
     parse_object object_str
       = Err (ParseError (DuplicateProperty raw_j (_translate_key raw_j)))).
Proof.
  intros Htok Hi Hj Hij Hri Hrj Hsame.
  pose proof (lookup_lt_Some _ _ _ Hrj) as Hjn.
  assert (H3 : (3 <= length tokens)%nat) by (destruct Hi as [a ->]; lia).
  assert (Hdup : forall properties,
    Nat.even (length tokens) = false ->
    assemble tokens (py_range 1 j 2) ∅ = Ok properties ->
    parse_object object_str
      = Err (ParseError (DuplicateProperty raw_j (_translate_key raw_j)))).
  { intros properties Hodd Hpre.
    destruct (parse_object_tokens _ _ Htok H3 Hodd) as (kind & _ & ->).
    destruct (py_range_split (length tokens) j Hj Hjn) as [rest ->].
    rewrite assemble_app, Hpre, bind_ok.
    assert (Hv : (j + 1 < length tokens)%nat).
    { destruct (odd_length _ Hodd) as [h Hh]. destruct Hj as [b ->]. lia. }
    destruct (lookup_lt_is_Some_2 _ _ Hv) as [value_str Hvs].
    rewrite (assemble_step _ _ _ _ _ _ Hrj Hvs).
    rewrite (proj2 (member_spec _ _)); [reflexivity|].
    rewrite <- Hsame. apply (assemble_has_keys _ _ _ _ i _ Hpre); [|exact Hri].
    apply py_range_elem_of; assumption. }
  split; [|exact Hdup].
  assert (Hp : exists e, parse_object object_str = Err (ParseError e)).
  { destruct (Nat.even (length tokens)) eqn:Hev.
    { eexists. apply (parse_object_count_checks _ _ Htok). right. exact Hev. }
    destruct (assemble tokens (py_range 1 j 2) ∅) as [properties|e] eqn:Hpre.
    { eexists. apply (Hdup properties); auto. }
    destruct (parse_object_tokens _ _ Htok H3 Hev) as (kind & _ & ->).
    destruct (py_range_split (length tokens) j Hj Hjn) as [rest Hsplit].
    rewrite Hsplit, assemble_app, Hpre, bind_err.
    apply assemble_errors in Hpre as [(raw & key & ->) | [[s ->] | [[s ->] | [s ->]]]]; eauto.
    pose proof (py_range_pairs _ H3 Hev) as Hall. rewrite Hsplit in Hall.
    apply Forall_app in Hall as [Hall _]. exact Hall. }
  destruct Hp as [e Hp]. exists e. split; [exact Hp|].
  intros today. apply create_object_from_string_parse_error, Hp.
Qed.

(** 'вес' and 'масса' in one line: both are 'weight'. *)
Lemma duplicate_canonical_key_is_refused_witness :
  parse_object (py "Exercise вес 60.0 масса 70.0")
    = Err (ParseError (DuplicateProperty (py "масса") (py "weight"))).
Proof.
  refine (proj2 (duplicate_canonical_key_is_refused (py "Exercise вес 60.0 масса 70.0")
            [py "Exercise"; py "вес"; py "60.0"; py "масса"; py "70.0"]
            1 3 (py "вес") (py "масса") _ _ _ _ _ _ _)
            (<[py "weight" := VFloat (float_of_Z 60)]> ∅) _ _).
  - vm_compute. reflexivity.
  - exists 0%nat. reflexivity.
  - exists 1%nat. reflexivity.
  - lia.
  - reflexivity.
  - reflexivity.
  - vm_compute. reflexivity.
  - reflexivity.
  - vm_compute. reflexivity.
Defined.

Example duplicate_of_the_same_spelling :
  parse_object (py "UserProfile gender " ++ quoted (py "мужской") ++ py " gender "
                  ++ quoted (py "женский"))
    = Err (ParseError (DuplicateProperty (py "gender") (py "gender"))).
Proof. vm_compute. reflexivity. Qed.

(** C5 as the specification words it fails: 'вес' and 'масса' are both
    'weight', and the line is refused for the time it writes before the second
    key, not as a duplicate property. *)
Lemma earlier_error_is_raised_before_the_duplicate :
  _tokenize_string (py "Exercise вес 25:99 масса 70.0")
    = Ok [py "Exercise"; py "вес"; py "25:99"; py "масса"; py "70.0"] /\
  _translate_key (py "вес") = py "weight" /\
  _translate_key (py "масса") = py "weight" /\
  parse_object (py "Exercise вес 25:99 масса 70.0")
    = Err (ParseError (BadTime (py "25:99"))) /\
  parse_object (py "Exercise вес 25:99 масса 70.0")
    <> Err (ParseError (DuplicateProperty (py "масса") (py "weight"))).
Proof.
  split; [vm_compute; reflexivity|]. split; [vm_compute; reflexivity|].
  split; [vm_compute; reflexivity|]. split; [vm_compute; reflexivity|].
  vm_compute. discriminate.
Qed.

(** ** Construction *)

Lemma arg_raises kwargs name : raises_only not_parse_error (arg kwargs name).
Proof.
  unfold arg. destruct (kwargs !! name); [apply raises_only_ok|apply raises_only_err; exact I].
Qed.

Lemma py_lower_raises v : raises_only not_parse_error (py_lower v).
Proof. destruct v; simpl; (apply raises_only_ok || (apply raises_only_err; exact I)). Qed.

Lemma py_between_raises lo v hi : raises_only not_parse_error (py_between lo v hi).
Proof. destruct v; simpl; (apply raises_only_ok || (apply raises_only_err; exact I)). Qed.

Lemma check_raises b e : raises_only not_parse_error (check b e).
Proof. destruct b; simpl; [apply raises_only_ok|apply raises_only_err; exact I]. Qed.

Ltac raises :=
  repeat first
    [ apply raises_only_ok
    | apply raises_only_err; exact I
    | apply arg_raises | apply py_lower_raises | apply py_between_raises | apply check_raises
    | apply raises_only_bind; [|intros ?] ].

Lemma UserProfile_new_raises kwargs : raises_only not_parse_error (UserProfile.new kwargs).
Proof.
  unfold UserProfile.new. destruct (unexpected_keyword _ _); [raises|].
  unfold UserProfile.__post_init__, UserProfile._validate_пол, UserProfile._validate_age,
    UserProfile._validate_height, UserProfile._validate_weight, UserProfile._validate_goal,
    UserProfile._validate_activity_type. raises.
Qed.

Lemma Exercise_new_raises kwargs : raises_only not_parse_error (Exercise.new kwargs).
Proof.
  unfold Exercise.new. destruct (unexpected_keyword _ _); [raises|].
  unfold Exercise.__post_init__, Exercise._validate_sets, Exercise._validate_reps,
    Exercise._validate_weight. raises.
Qed.

Lemma Workout_new_raises today kwargs : raises_only not_parse_error (Workout.new today kwargs).
Proof.
  unfold Workout.new. destruct (unexpected_keyword _ _); [raises|].
  unfold Workout.__post_init__, Workout._validate_date. raises.
  cbn [Workout.date]. destruct a; raises. destruct today as [[ty tm] td].
  destruct (_ || _); raises.
Qed.

Lemma NutritionGoal_new_raises kwargs : raises_only not_parse_error (NutritionGoal.new kwargs).
Proof.
  unfold NutritionGoal.new. destruct (unexpected_keyword _ _); [raises|].
  unfold NutritionGoal.__post_init__, NutritionGoal._validate_goal_type,
    NutritionGoal._validate_calories, NutritionGoal._validate_macronutrients. raises.
Qed.

(** The dispatch of [create_object] on the class name. *)
Lemma assoc_classes object_type :
  assoc object_type OBJECT_CLASSES =
    if bool_decide (py "UserProfile" = object_type)
    then Some (fun _ kw => o ← UserProfile.new kw; Ok (AUserProfile o))
    else if bool_decide (py "Exercise" = object_type)
    then Some (fun _ kw => o ← Exercise.new kw; Ok (AnExercise o))
    else if bool_decide (py "Workout" = object_type)
    then Some (fun today kw => o ← Workout.new today kw; Ok (AWorkout o))
    else if bool_decide (py "NutritionGoal" = object_type)
    then Some (fun _ kw => o ← NutritionGoal.new kw; Ok (ANutritionGoal o))
    else None.
Proof. reflexivity. Qed.

Lemma assoc_required object_type :
  assoc object_type required_properties =
    if bool_decide (py "UserProfile" = object_type)
    then Some [ (py "gender", TStr); (py "age", TInt); (py "height", TFloat);
                (py "weight", TFloat); (py "goal", TStr); (py "activity_type", TStr) ]
    else if bool_decide (py "Exercise" = object_type)
    then Some [ (py "name", TStr); (py "sets", TInt); (py "reps_per_set", TInt);
                (py "weight", TFloat) ]
    else if bool_decide (py "Workout" = object_type)
    then Some [ (py "date", TDate); (py "duration", TTime) ]
    else if bool_decide (py "NutritionGoal" = object_type)
    then Some [ (py "goal_type", TStr); (py "calories", TFloat); (py "protein", TFloat);
                (py "fat", TFloat); (py "carbs", TFloat) ]
    else None.
Proof. reflexivity. Qed.

(** The schema table and the class table have the same kinds. *)
Lemma unknown_kind_has_no_class object_type :
  assoc object_type required_properties = None <-> assoc object_type OBJECT_CLASSES = None.
Proof.
  rewrite assoc_classes, assoc_required.
  repeat case_bool_decide; split; (discriminate || reflexivity).
Qed.

Lemma create_object_raises today d e :
  create_object today d = Err e ->
  e = ParseError (UnknownObjectType (type d)) \/ e = ParseError (ConstructionFailed (type d)) \/
  not_parse_error e.
Proof.
  unfold create_object. rewrite assoc_classes.
  assert (K : forall r : result exn domain_object, raises_only not_parse_error r ->
    except_type_error (type d) r = Err e ->
    e = ParseError (UnknownObjectType (type d)) \/
    e = ParseError (ConstructionFailed (type d)) \/ not_parse_error e).
  { intros [o|[p|v|[]]] Hr; try discriminate; intros [= <-]; auto;
      right; right; apply Hr; reflexivity. }
  repeat case_bool_decide.
  - apply K. apply raises_only_bind; [apply UserProfile_new_raises|intros; raises].
  - apply K. apply raises_only_bind; [apply Exercise_new_raises|intros; raises].
  - apply K. apply raises_only_bind; [apply Workout_new_raises|intros; raises].
  - apply K. apply raises_only_bind; [apply NutritionGoal_new_raises|intros; raises].
  - intros [= <-]. auto.
Qed.

Lemma create_object_from_string_cases today object_str :
  (exists e, parse_object object_str = Err e /\
             create_object_from_string today object_str = Err e) \/
  (exists d, parse_object object_str = Ok d /\
     create_object_from_string today object_str =
       except_unexpected (create_object today d)).
Proof.
  unfold create_object_from_string.
  destruct (parse_object object_str) as [d|e] eqn:Hp.
  - right. exists d. split; reflexivity.
  - left. exists e. split; [reflexivity|]. rewrite bind_err.
    apply parse_object_errors in Hp. destruct Hp; reflexivity.
Qed.

Lemma except_type_error_ok {A} t (r : result exn A) a : except_type_error t r = Ok a -> r = Ok a.
Proof. destruct r as [|[| |[]]]; simpl; unfold raise; intros; congruence. Qed.

Lemma except_unexpected_ok {A} (r : result exn A) a : except_unexpected r = Ok a -> r = Ok a.
Proof. destruct r as [|[| |]]; simpl; unfold raise; intros; congruence. Qed.

Lemma create_object_ok_inv today d o :
  create_object today d = Ok o ->
  match o with
  | AUserProfile p => type d = py "UserProfile" /\ UserProfile.new (properties d) = Ok p
  | AnExercise e => type d = py "Exercise" /\ Exercise.new (properties d) = Ok e
  | AWorkout w => type d = py "Workout" /\ Workout.new today (properties d) = Ok w
  | ANutritionGoal g => type d = py "NutritionGoal" /\ NutritionGoal.new (properties d) = Ok g
  end.
Proof.
  unfold create_object. rewrite assoc_classes.
  repeat case_bool_decide; try discriminate; intros Hc; apply except_type_error_ok in Hc;
    apply bind_ok_inv in Hc as (x & Hx & [= <-]); auto.
Qed.

Lemma create_object_from_string_ok_inv today object_str o :
  create_object_from_string today object_str = Ok o ->
  exists d, parse_object object_str = Ok d /\ create_object today d = Ok o.
Proof.
  intros H. destruct (create_object_from_string_cases today object_str)
    as [(e & _ & Hc) | (d & Hp & Hc)]; rewrite Hc in H; [discriminate|].
  apply except_unexpected_ok in H. eauto.
Qed.

(** ** The fields of the records *)

(** A value, once in the mapping, stays: a later key of the same canonical
    name is refused, not written over. *)
Lemma assemble_keeps_values tokens indices properties properties' (key : str) v :
  assemble tokens indices properties = Ok properties' ->
  properties !! key = Some v -> properties' !! key = Some v.
Proof.
  revert properties. induction indices as [|i rest IH]; intros properties; cbn [assemble].
  - intros [= <-]. auto.
  - destruct (length tokens <=? i + 1)%nat.
    { destruct (index tokens i); discriminate. }
    destruct (index tokens i) as [raw|]; [|discriminate]. rewrite bind_ok.
    destruct (index tokens (i + 1)) as [value_str|]; [|discriminate]. rewrite bind_ok.
    destruct (member (_translate_key raw) properties) eqn:Hm; [discriminate|].
    destruct (parse_value value_str) as [v'|]; [|discriminate]. rewrite bind_ok.
    intros H Hk. apply (IH _ H). rewrite lookup_insert_ne; [exact Hk|].
    intros <-. apply not_true_iff_false in Hm. apply Hm, member_spec. eauto.
Qed.

(** Every pair of the line is in the mapping: the inferred value of the value
    token, under the canonical name of the key token. *)
Lemma assemble_values tokens indices properties properties' i raw value_str :
  assemble tokens indices properties = Ok properties' ->
  i ∈ indices -> tokens !! i = Some raw -> tokens !! (i + 1)%nat = Some value_str ->
  exists v, parse_value value_str = Ok v /\ properties' !! _translate_key raw = Some v.
Proof.
  revert properties. induction indices as [|j rest IH]; intros properties H Hin Hraw Hvs.
  - inversion Hin.
  - apply elem_of_cons in Hin as [<- | Hin].
    + rewrite (assemble_step _ _ _ _ _ _ Hraw Hvs) in H.
      destruct (member _ _); [discriminate|].
      destruct (parse_value value_str) as [v|]; [|discriminate]. rewrite bind_ok in H.
      exists v. split; [reflexivity|].
      apply (assemble_keeps_values _ _ _ _ _ _ H). apply lookup_insert_eq.
    + cbn [assemble] in H. destruct (length tokens <=? j + 1)%nat.
      { destruct (index tokens j); discriminate. }
      destruct (index tokens j) as [raw'|]; [|discriminate]. rewrite bind_ok in H.
      destruct (index tokens (j + 1)) as [value_str'|]; [|discriminate]. rewrite bind_ok in H.
      destruct (member _ _); [discriminate|].
      destruct (parse_value value_str') as [v'|]; [|discriminate]. rewrite bind_ok in H.
      apply (IH _ H Hin Hraw Hvs).
Qed.

(** The mapping [parse_object] returns holds, for every key token of the line,
    the value inferred from the token after it. *)
Lemma parse_object_values object_str d :
  parse_object object_str = Ok d ->
  exists tokens,
    _tokenize_string object_str = Ok tokens /\ tokens !! 0%nat = Some (type d) /\
    forall i raw, Nat.Odd i -> tokens !! i = Some raw ->
      exists value_str v,
        tokens !! (i + 1)%nat = Some value_str /\ parse_value value_str = Ok v /\
        properties d !! _translate_key raw = Some v.
Proof.
  intros H. apply parse_object_ok_inv in H as (tokens & Htok & H3 & Hodd & H0 & Ha & _).
  exists tokens. split; [exact Htok|]. split; [exact H0|].
  intros i raw Hi Hraw. pose proof (lookup_lt_Some _ _ _ Hraw) as Hlt.
  assert (Hv : (i + 1 < length tokens)%nat).
  { destruct (odd_length _ Hodd) as [h Hh]. destruct Hi as [b ->]. lia. }
  destruct (lookup_lt_is_Some_2 _ _ Hv) as [value_str Hvs].
  destruct (assemble_values _ _ _ _ i raw value_str Ha) as (v & Hpv & Hl); auto.
  { apply py_range_elem_of; assumption. }
  exists value_str, v. auto.
Qed.

Lemma arg_ok_inv kwargs name v : arg kwargs name = Ok v -> kwargs !! name = Some v.
Proof. unfold arg. destruct (kwargs !! name); [intros [= ->]; reflexivity|discriminate]. Qed.

(** The fields of a record [create_object] returns are the values of the
    mapping, and the optional ones their default when the mapping has no such
    key. *)
Lemma constructed_fields_are_the_properties today d o :
  create_object today d = Ok o ->
  match o with
  | AUserProfile p => True
  | AnExercise e =>
      properties d !! py "name" = Some (Exercise.name e) /\
      properties d !! py "sets" = Some (Exercise.sets e) /\
      properties d !! py "reps_per_set" = Some (Exercise.reps_per_set e) /\
      properties d !! py "weight" = Some (Exercise.weight e) /\
      Exercise.notes e = default (VStr []) (properties d !! py "notes")
  | AWorkout w =>
      properties d !! py "date" = Some (Workout.date w) /\
      properties d !! py "duration" = Some (Workout.duration w) /\
      Workout.exercises w
        = from_option Workout.Passed (Workout.Owned []) (properties d !! py "exercises") /\
      Workout.notes w = default (VStr []) (properties d !! py "notes")
  | ANutritionGoal g =>
      properties d !! py "goal_type" = Some (NutritionGoal.goal_type g) /\
      properties d !! py "calories" = Some (NutritionGoal.calories g) /\
      properties d !! py "protein" = Some (NutritionGoal.protein g) /\
      properties d !! py "fat" = Some (NutritionGoal.fat g) /\
      properties d !! py "carbs" = Some (NutritionGoal.carbs g)
  end.
Proof.
  intros H. apply create_object_ok_inv in H. destruct o as [p|e|w|g]; [exact I| | |];
    destruct H as [_ Hnew].
  - unfold Exercise.new in Hnew. destruct (unexpected_keyword _ _); [discriminate|].
    apply bind_ok_inv in Hnew as (a1 & H1 & Hnew). apply bind_ok_inv in Hnew as (a2 & H2 & Hnew).
    apply bind_ok_inv in Hnew as (a3 & H3 & Hnew). apply bind_ok_inv in Hnew as (a4 & H4 & Hnew).
    cbv zeta in Hnew. apply bind_ok_inv in Hnew as ([] & _ & [= <-]).
    apply arg_ok_inv in H1, H2, H3, H4. cbn. auto.
  - unfold Workout.new in Hnew. destruct (unexpected_keyword _ _); [discriminate|].
    apply bind_ok_inv in Hnew as (a1 & H1 & Hnew). apply bind_ok_inv in Hnew as (a2 & H2 & Hnew).
    cbv zeta in Hnew. apply bind_ok_inv in Hnew as ([] & _ & [= <-]).
    apply arg_ok_inv in H1, H2. cbn. auto.
  - unfold NutritionGoal.new in Hnew. destruct (unexpected_keyword _ _); [discriminate|].
    apply bind_ok_inv in Hnew as (a1 & H1 & Hnew). apply bind_ok_inv in Hnew as (a2 & H2 & Hnew).
    apply bind_ok_inv in Hnew as (a3 & H3 & Hnew). apply bind_ok_inv in Hnew as (a4 & H4 & Hnew).
    apply bind_ok_inv in Hnew as (a5 & H5 & Hnew).
    cbv zeta in Hnew. apply bind_ok_inv in Hnew as ([] & _ & [= <-]).
    apply arg_ok_inv in H1, H2, H3, H4, H5. cbn. auto.
Qed.

(** ** The scenarios *)

(** The schema of a profile asks for the key 'gender', which is not a field of
    the class: a mapping that has it is refused by the constructor call. *)
Lemma unexpected_keyword_intro fields kwargs k :
  is_Some (kwargs !! k) -> k ∉ fields -> unexpected_keyword fields kwargs = true.
Proof.
  intros Hk Hnf. unfold unexpected_keyword.
  rewrite bool_decide_eq_false_2; [reflexivity|].
  intros Hsub. apply Hnf. apply elem_of_dom in Hk. apply Hsub in Hk.
  apply elem_of_list_to_set in Hk. exact Hk.
Qed.

Lemma gender_is_not_a_field : py "gender" ∉ UserProfile.fields.
Proof. apply (bool_decide_unpack _). vm_compute. exact I. Qed.

Lemma no_user_profile_from_text today object_str :
  is_user_profile (create_object_from_string today object_str) = false.
Proof.
  destruct (create_object_from_string today object_str) as [[p| | |]|e] eqn:H;
    try reflexivity.
  exfalso.
  apply create_object_from_string_ok_inv in H as (d & Hp & Hc).
  apply create_object_ok_inv in Hc as [Ht Hnew].
  apply parse_object_ok_inv in Hp as (tokens & _ & _ & _ & _ & _ & Hval).
  specialize (Hval _ ltac:(rewrite Ht; reflexivity)).
  destruct (validate_ok_inv _ _ _ Hval (py "gender") TStr) as (v & Hv & _).
  { rewrite list_elem_of_In. left. reflexivity. }
  unfold UserProfile.new in Hnew.
  rewrite (unexpected_keyword_intro _ _ (py "gender")) in Hnew;
    [discriminate|eauto|apply gender_is_not_a_field].
Qed.

(** C1, on the code.  The line of the first scenario does not give a profile:
    the mapping [parse_object] returns has the key 'gender', the class names
    the field 'пол', and the call of the constructor fails with a
    [ParseError].  No line at all gives a profile. *)
Theorem user_profile_line_is_rejected (today : Z * Z * Z) :
  create_object_from_string today profile_line
    = Err (ParseError (ConstructionFailed (py "UserProfile"))) /\
  forall object_str,
    is_user_profile (create_object_from_string today object_str) = false.
Proof.
  split; [vm_compute; reflexivity|]. intros. apply no_user_profile_from_text.
Qed.

(** The same values under the name the class gives the field: the record is
    built, its index is between 23.0 and 23.1 and its category is the normal
    one. *)
Example profile_under_the_field_name :
  exists p,
    UserProfile.new (profile_kwargs 25) = Ok p /\
    UserProfile.age p = VInt 25 /\
    (exists bmi, UserProfile.calculate_bmi p = Ok bmi /\
       fleb (float_of_decimal false 230 1) bmi = true /\
       fltb bmi (float_of_decimal false 231 1) = true) /\
    UserProfile.get_bmi_category p = Ok (py "Нормальный вес").
Proof.
  eexists. split; [vm_compute; reflexivity|]. split; [reflexivity|].
  split; [|vm_compute; reflexivity].
  eexists. split; [vm_compute; reflexivity|]. split; vm_compute; reflexivity.
Qed.

(** C2, on the code.  The line of the fifth scenario, with age 150, does not
    end with a [ValidationError]: the constructor call fails on the keyword
    'gender' before the validators run, and the error is a [ParseError].  The
    validator of the age does refuse 150 when the call reaches it, and
    [parse_object] never ends with a [ValidationError]. *)
Theorem age_150_line_is_a_parse_error (today : Z * Z * Z) :
  create_object_from_string today age_150_line
    = Err (ParseError (ConstructionFailed (py "UserProfile"))) /\
  is_validation_error (create_object_from_string today age_150_line) = false /\
  UserProfile.new (profile_kwargs 150) = Err (ValidationError (InvalidAge (VInt 150))) /\
  forall object_str, is_validation_error (parse_object object_str) = false.
Proof.
  split; [vm_compute; reflexivity|]. split; [vm_compute; reflexivity|].
  split; [vm_compute; reflexivity|].
  intros object_str. destruct (parse_object object_str) as [d|e] eqn:H; [reflexivity|].
  apply parse_object_errors in H. destruct H; reflexivity.
Qed.

(** A value out of range in a line of another kind does end with a
    [ValidationError]. *)
Example exercise_out_of_range :
  forall today,
    create_object_from_string today
      (py "Exercise name " ++ quoted (py "Жим") ++ py " sets 50 reps_per_set 8 weight 67.5")
    = Err (ValidationError (InvalidSets (VInt 50))).
Proof. intros today. vm_compute. reflexivity. Qed.

(** C4, as the code has it.  For a line whose kind has no schema entry, no
    property is checked against a schema: when the count checks pass and the
    pairs assemble, [parse_object] returns the mapping under that kind,
    whatever it holds, and [create_object_from_string] ends with the
    unknown-kind [ParseError], raised by [create_object].  [parse_object]
    never raises that error, and every line of such a kind ends with a
    [ParseError]: its own, when it refuses the line, or the unknown-kind
    one. *)
Theorem unknown_kind_fails_in_constructor (object_str : str) (tokens : list str)
    (kind : str) :
  _tokenize_string object_str = Ok tokens ->
  tokens !! 0%nat = Some kind ->
  assoc kind required_properties = None ->
  (forall properties,
     (3 <= length tokens)%nat -> Nat.even (length tokens) = false ->
     assemble tokens (py_range 1 (length tokens) 2) ∅ = Ok properties ->
     parse_object object_str = Ok (Descriptor kind properties) /\
     forall today, create_object today (Descriptor kind properties)
                     = Err (ParseError (UnknownObjectType kind)) /\
                   create_object_from_string today object_str
                     = Err (ParseError (UnknownObjectType kind))) /\
  (forall k, parse_object object_str <> Err (ParseError (UnknownObjectType k))) /\
  (forall today,
     (exists e, parse_object object_str = Err (ParseError e) /\
                create_object_from_string today object_str = Err (ParseError e)) \/
     (exists d, parse_object object_str = Ok d /\
                create_object_from_string today object_str
                  = Err (ParseError (UnknownObjectType kind)))).
Proof.
  intros Htok H0 Hkind.
  assert (Hclass : forall d, type d = kind ->
            forall today, create_object today d = Err (ParseError (UnknownObjectType kind))).
  { intros d <- today. unfold create_object.
    rewrite (proj1 (unknown_kind_has_no_class _) Hkind). reflexivity. }
  split; [|split].
  - intros properties H3 Hodd Ha.
    destruct (parse_object_tokens _ _ Htok H3 Hodd) as (kind' & H0' & E).
    assert (kind' = kind) by congruence. subst kind'.
    rewrite Ha, Hkind in E. split; [exact E|].
    intros today. split; [apply Hclass; reflexivity|].
    unfold create_object_from_string. rewrite E, bind_ok.
    rewrite (Hclass (Descriptor kind properties) eq_refl). reflexivity.
  - intros k H. apply parse_object_errors in H. inversion H.
  - intros today.
    destruct (create_object_from_string_cases today object_str)
      as [(e & Hp & Hc) | (d & Hp & Hc)]; rewrite Hc.
    + left. pose proof (parse_object_errors _ _ Hp) as He. destruct He; eauto.
    + right. exists d. split; [exact Hp|].
      apply parse_object_ok_inv in Hp as (tokens' & Htok' & _ & _ & H0' & _).
      assert (type d = kind) by congruence.
      rewrite (Hclass d) by assumption. reflexivity.
Qed.

(** The sixth scenario, [UnknownKind x 1]. *)
Lemma unknown_kind_fails_in_constructor_witness :
  parse_object (py "UnknownKind x 1")
    = Ok (Descriptor (py "UnknownKind") (<[py "x" := VInt 1]> ∅)) /\
  forall today,
    create_object_from_string today (py "UnknownKind x 1")
      = Err (ParseError (UnknownObjectType (py "UnknownKind"))).
Proof.
  destruct (proj1 (unknown_kind_fails_in_constructor (py "UnknownKind x 1")
                     [py "UnknownKind"; py "x"; py "1"] (py "UnknownKind")
                     ltac:(vm_compute; reflexivity) ltac:(reflexivity)
                     ltac:(vm_compute; reflexivity))
                  (<[py "x" := VInt 1]> ∅)
                  ltac:(simpl; lia) ltac:(reflexivity) ltac:(vm_compute; reflexivity))
    as [Hp Hc].
  split; [exact Hp|]. intros today. apply Hc.
Defined.

(** C4 as the specification words it fails: a line of an unknown kind is
    still refused by [parse_object] when its value cannot be inferred or its
    tokens do not pair up, and the pipeline then stops before construction. *)
Lemma unknown_kind_line_is_refused_by_parse_object :
  assoc (py "UnknownKind") required_properties = None /\
  _tokenize_string (py "UnknownKind x 25:99")
    = Ok [py "UnknownKind"; py "x"; py "25:99"] /\
  parse_object (py "UnknownKind x 25:99") = Err (ParseError (BadTime (py "25:99"))) /\
  create_object_from_string (2026, 11, 6) (py "UnknownKind x 25:99")
    = Err (ParseError (BadTime (py "25:99"))) /\
  parse_object (py "UnknownKind x") = Err (ParseError NotEnoughData).
Proof. repeat split; vm_compute; reflexivity. Qed.

(** C10.  Once a token list has at least three tokens and an odd number of
    them, every index the loop visits has a token after it, so the error of
    an unpaired key is raised on no line, by [parse_object] or by
    [create_object_from_string]. *)
Theorem unpaired_key_branch_is_unreachable :
  (forall tokens : list str,
     (3 <= length tokens)%nat -> Nat.even (length tokens) = false ->
     Forall (fun i => (i + 1 < length tokens)%nat) (py_range 1 (length tokens) 2)) /\
  (forall object_str key, parse_object object_str <> Err (ParseError (UnpairedKey key))) /\
  (forall today object_str key,
     create_object_from_string today object_str <> Err (ParseError (UnpairedKey key))).
Proof.
  split; [|split].
  - intros tokens. apply py_range_pairs.
  - intros object_str key H. apply parse_object_errors in H. inversion H.
  - intros today object_str key H.
    destruct (create_object_from_string_cases today object_str)
      as [(e & Hp & Hc) | (d & Hp & Hc)]; rewrite Hc in H.
    + injection H as ->. apply parse_object_errors in Hp. inversion Hp.
    + destruct (create_object today d) as [o|e] eqn:Hcr; [discriminate|].
      apply create_object_raises in Hcr as [-> | [-> | Hn]]; try discriminate.
      destruct e as [p|v|b]; [destruct Hn|discriminate|discriminate].
Qed.

(** Five tokens: the loop visits the indices 1 and 3, and 2 and 4 hold their
    values. *)
Lemma unpaired_key_branch_is_unreachable_witness :
  py_range 1 5 2 = [1; 3]%nat /\
  Forall (fun i => (i + 1 < 5)%nat)
    (py_range 1 (length [py "Workout"; py "date"; py "2025.12.15"; py "duration"; py "01:30"]) 2).
Proof.
  split; [reflexivity|].
  apply (proj1 unpaired_key_branch_is_unreachable
           [py "Workout"; py "date"; py "2025.12.15"; py "duration"; py "01:30"]).
  - simpl. lia.
  - reflexivity.
Defined.

(** The message of the unpaired key is what the tests expect of
    [UserProfile gender]; the line is refused by the count check instead. *)
Example two_tokens_are_not_an_unpaired_key :
  parse_object (py "UserProfile gender") = Err (ParseError NotEnoughData).
Proof. vm_compute. reflexivity. Qed.

(** ** Exercises *)

Lemma small_int_is_finite n : 0 <= n <= 2000 -> is_finite (float_of_Z n) = true.
Proof.
  intros Hn.
  assert (H : forallb (fun k => is_finite (float_of_Z (Z.of_nat k))) (seq 0 2001) = true)
    by (vm_compute; reflexivity).
  rewrite forallb_forall in H. specialize (H (Z.to_nat n)).
  rewrite Z2Nat.id in H by lia. apply H. apply in_seq. lia.
Qed.

Lemma check_ok_inv b e : check b e = Ok tt -> b = true.
Proof. destruct b; [reflexivity|discriminate]. Qed.

Lemma type_of_int v : type_of v = TInt -> exists i, v = VInt i.
Proof. destruct v; try discriminate. eauto. Qed.

Lemma type_of_float v : type_of v = TFloat -> exists f, v = VFloat f.
Proof. destruct v; try discriminate. eauto. Qed.

Lemma arg_lookup kwargs name v : kwargs !! name = Some v -> arg kwargs name = Ok v.
Proof. unfold arg. intros ->. reflexivity. Qed.

(** C9.  The line of the second scenario gives the exercise with the name
    'Приседания', 4 sets, 10 repetitions, the weight 60.0 and empty notes; its
    volume is 2400.0.  Every exercise the pipeline returns has an integer
    number of sets and of repetitions and a float weight, and its volume is
    the product of the three, sets by repetitions first. *)
Theorem exercise_line_volume :
  (forall today, create_object_from_string today exercise_line = Ok (AnExercise squats)) /\
  Exercise.calculate_volume squats = Ok (VFloat (float_of_Z 2400)) /\
  (forall today object_str e,
     create_object_from_string today object_str = Ok (AnExercise e) ->
     exists s r w,
       Exercise.sets e = VInt s /\ Exercise.reps_per_set e = VInt r /\
       Exercise.weight e = VFloat w /\ 1 <= s <= 20 /\ 1 <= r <= 100 /\
       Exercise.calculate_volume e = Ok (VFloat (fmul (float_of_Z (s * r)) w))).
Proof.
  split; [intros today; vm_compute; reflexivity|].
  split; [vm_compute; reflexivity|].
  intros today object_str e H.
  apply create_object_from_string_ok_inv in H as (d & Hp & Hc).
  apply create_object_ok_inv in Hc as [Ht Hnew].
  apply parse_object_ok_inv in Hp as (tokens & _ & _ & _ & _ & _ & Hval).
  specialize (Hval _ ltac:(rewrite Ht; reflexivity)).
  pose proof (validate_ok_inv _ _ _ Hval) as Hreq.
  destruct (Hreq (py "sets") TInt) as (vs & Hs & Hts);
    [rewrite list_elem_of_In; simpl; auto|].
  destruct (Hreq (py "reps_per_set") TInt) as (vr & Hr & Htr);
    [rewrite list_elem_of_In; simpl; auto|].
  destruct (Hreq (py "weight") TFloat) as (vw & Hw & Htw);
    [rewrite list_elem_of_In; simpl; auto 6|].
  destruct (Hreq (py "name") TStr) as (vn & Hn & Htn);
    [rewrite list_elem_of_In; simpl; auto|].
  apply type_of_int in Hts as [s ->]. apply type_of_int in Htr as [r ->].
  apply type_of_float in Htw as [w ->].
  unfold Exercise.new in Hnew. destruct (unexpected_keyword _ _); [discriminate|].
  rewrite (arg_lookup _ _ _ Hn), (arg_lookup _ _ _ Hs), (arg_lookup _ _ _ Hr),
    (arg_lookup _ _ _ Hw), !bind_ok in Hnew.
  cbv zeta in Hnew. apply bind_ok_inv in Hnew as ([] & Hpost & [= <-]).
  unfold Exercise.__post_init__, Exercise._validate_sets, Exercise._validate_reps,
    Exercise._validate_weight in Hpost. cbn [Exercise.sets Exercise.reps_per_set
    Exercise.weight py_between] in Hpost. rewrite !bind_ok in Hpost.
  apply bind_ok_inv in Hpost as ([] & Hcs & Hpost). apply check_ok_inv in Hcs.
  apply bind_ok_inv in Hpost as ([] & Hcr & _). apply check_ok_inv in Hcr.
  apply andb_true_iff in Hcs as [Hs1 Hs2]. apply andb_true_iff in Hcr as [Hr1 Hr2].
  apply Z.leb_le in Hs1, Hs2, Hr1, Hr2.
  exists s, r, w. cbn [Exercise.sets Exercise.reps_per_set Exercise.weight].
  repeat (split; [reflexivity || lia|]).
  unfold Exercise.calculate_volume.
  cbn [Exercise.sets Exercise.reps_per_set Exercise.weight py_mul].
  rewrite bind_ok. cbn [py_mul py_to_float]. unfold py_float_of_int.
  rewrite small_int_is_finite by nia. reflexivity.
Qed.

(** The exercise of the scenario, through the general statement: 4 sets of 10
    repetitions with 60.0 are 2400.0. *)
Lemma exercise_line_volume_witness :
  exists s r w,
    Exercise.sets squats = VInt s /\ Exercise.reps_per_set squats = VInt r /\
    Exercise.weight squats = VFloat w /\ 1 <= s <= 20 /\ 1 <= r <= 100 /\
    Exercise.calculate_volume squats = Ok (VFloat (fmul (float_of_Z (s * r)) w)).
Proof.
  apply (proj2 (proj2 exercise_line_volume) (2026, 11, 6) exercise_line squats).
  vm_compute. reflexivity.
Defined.

Example volume_of_the_scenario :
  fmul (float_of_Z (4 * 10)) (float_of_Z 60) = float_of_Z 2400 /\
  parse_value (py "60.0") = Ok (VFloat (float_of_Z 60)) /\
  parse_value (py "2400.0") = Ok (VFloat (float_of_Z 2400)).
Proof. repeat split; vm_compute; reflexivity. Qed.

Lemma py_between_ok_inv lo v hi :
  py_between lo v hi = Ok true ->
  (exists i, v = VInt i /\ lo <= i <= hi) \/ (exists f, v = VFloat f).
Proof.
  destruct v; simpl; try discriminate; intros [= H].
  - left. apply andb_true_iff in H as [H1 H2]. apply Z.leb_le in H1, H2. eauto.
  - right. eauto.
Qed.

Lemma py_to_float_small v lo hi :
  0 <= lo -> hi <= 2000 ->
  (exists i, v = VInt i /\ lo <= i <= hi) \/ (exists f, v = VFloat f) ->
  exists f, py_to_float v = Ok f.
Proof.
  intros Hlo Hhi [(i & -> & Hi) | (f & ->)]; simpl; [|eauto].
  unfold py_float_of_int. rewrite small_int_is_finite by lia. eauto.
Qed.

(** Every exercise the constructor returns has a volume: its three factors
    are numbers, and the integer ones are small. *)
Lemma constructed_exercise_has_a_volume kwargs e :
  Exercise.new kwargs = Ok e -> exists v, Exercise.calculate_volume e = Ok v.
Proof.
  unfold Exercise.new. destruct (unexpected_keyword _ _); [discriminate|]. intros Hnew.
  apply bind_ok_inv in Hnew as (a1 & _ & Hnew). apply bind_ok_inv in Hnew as (a2 & _ & Hnew).
  apply bind_ok_inv in Hnew as (a3 & _ & Hnew). apply bind_ok_inv in Hnew as (a4 & _ & Hnew).
  cbv zeta in Hnew. apply bind_ok_inv in Hnew as ([] & Hpost & [= <-]).
  unfold Exercise.__post_init__, Exercise._validate_sets, Exercise._validate_reps,
    Exercise._validate_weight in Hpost.
  cbn [Exercise.sets Exercise.reps_per_set Exercise.weight] in Hpost.
  apply bind_ok_inv in Hpost as ([] & Hs & Hpost).
  apply bind_ok_inv in Hs as (bs & Hs & Hcs). apply check_ok_inv in Hcs. subst bs.
  apply bind_ok_inv in Hpost as ([] & Hr & Hw).
  apply bind_ok_inv in Hr as (br & Hr & Hcr). apply check_ok_inv in Hcr. subst br.
  apply bind_ok_inv in Hw as (bw & Hw & Hcw). apply check_ok_inv in Hcw. subst bw.
  apply py_between_ok_inv in Hs, Hr, Hw.
  unfold Exercise.calculate_volume. cbn [Exercise.sets Exercise.reps_per_set Exercise.weight].
  destruct (py_to_float_small a4 0 1000 ltac:(lia) ltac:(lia) Hw) as [fw Hfw].
  assert (Hp : exists p, py_mul a2 a3 = Ok p /\
            ((exists i, p = VInt i /\ 1 <= i <= 2000) \/ exists f, p = VFloat f)).
  { destruct (py_to_float_small a2 1 20 ltac:(lia) ltac:(lia) Hs) as [fs Hfs].
    destruct (py_to_float_small a3 1 100 ltac:(lia) ltac:(lia) Hr) as [fr Hfr].
    destruct Hs as [(s & -> & Hs) | (f & ->)], Hr as [(r & -> & Hr) | (f' & ->)].
    - eexists. split; [reflexivity|]. left. eexists. split; [reflexivity|]. nia.
    - unfold py_mul. rewrite Hfs. simpl. eauto.
    - unfold py_mul. rewrite Hfr. simpl. eauto.
    - simpl. eauto. }
  destruct Hp as (p & -> & Hp). rewrite bind_ok.
  destruct (py_to_float_small p 1 2000 ltac:(lia) ltac:(lia) Hp) as [fp Hfp].
  destruct Hp as [(i & -> & Hi) | (f & ->)], Hw as [(w & -> & Hw) | (f' & ->)]; simpl.
  - eauto.
  - simpl in Hfp. rewrite Hfp. simpl. eauto.
  - simpl in Hfw. rewrite Hfw. simpl. eauto.
  - eauto.
Qed.

(** ** The tokenizer and the other scenarios *)

Example tokens_of_a_line :
  _tokenize_string (py "Exercise name " ++ quoted (py "Жим лёжа") ++ py "  sets 3")
    = Ok [py "Exercise"; py "name"; quoted (py "Жим лёжа"); py "sets"; py "3"] /\
  _tokenize_string (py "   ") = Err (ParseError EmptyString) /\
  _tokenize_string (py "UserProfile gender " ++ [QUOTE] ++ py "мужской")
    = Err (ParseError UnclosedQuotes).
Proof. repeat split; vm_compute; reflexivity. Qed.

Example workout_of_the_third_scenario :
  create_object_from_string (2026, 11, 6) (py "Workout date 2025.12.15 duration 01:30")
    = Ok (AWorkout (Workout.Build (VDate 2025 12 15) (VTime 1 30) (Workout.Owned [])
                      (VStr []))) /\
  create_object_from_string (2025, 12, 14) (py "Workout date 2025.12.15 duration 01:30")
    = Err (ValidationError DateInFuture).
Proof. split; vm_compute; reflexivity. Qed.
